(** * Jissen Mahjong controller to USB keyboard converter

    A shallow embedding of [Jissen_MJ_USB_Controller.ino] and the
    properties of its row acquisition, decoding and key-event logic.

    The sketch is modelled in a small state-and-trace monad: the global
    variables of the sketch form the state, every call that crosses the
    board boundary (GPIO, delay, USB keyboard) is appended to a trace, and
    the data line is an oracle giving the level seen by each successive
    [digitalRead]. *)

From Stdlib Require Import ZArith List Bool Ascii Lia.
Import ListNotations.
Local Open Scope Z_scope.

(* ===================================================================== *)
(** ** Arduino core: levels, pin modes and bit macros                     *)
(* ===================================================================== *)

Inductive level : Type := LOW | HIGH.

Inductive pin_mode : Type := INPUT | OUTPUT.

Definition level_eqb (a b : level) : bool :=
  match a, b with
  | LOW, LOW | HIGH, HIGH => true
  | _, _ => false
  end.

(** [bitRead(value, bit)] is [(((value) >> (bit)) & 0x01)]. *)
Definition bitRead (value bit : Z) : Z := Z.land (Z.shiftr value bit) 1.

(** [bitClear(value, bit)] is [((value) &= ~(1UL << (bit)))]. *)
Definition bitClear (value bit : Z) : Z :=
  Z.land value (Z.lnot (Z.shiftl 1 bit)).

(** Conversion of an [int] to [byte] (unsigned 8 bits). *)
Definition to_byte (z : Z) : Z := z mod 256.

(** Conversion of an [int] to [char]; [char] is a signed 8-bit type for
    the AVR compiler the sketch is built with. *)
Definition to_char (z : Z) : Z := (z + 128) mod 256 - 128.

(** A character literal, as its code. *)
Definition chr (c : ascii) : Z := Z.of_nat (nat_of_ascii c).

(* ===================================================================== *)
(** ** Constants and pin declarations of the sketch                       *)
(* ===================================================================== *)

(* Buttons in commands row *)
Definition RON_BUTTON    : Z := 1.
Definition RIICHI_BUTTON : Z := 2.
Definition CHI_BUTTON    : Z := 3.
Definition PON_BUTTON    : Z := 4.
Definition KAN_BUTTON    : Z := 5.
Definition ST_BUTTON     : Z := 6.
Definition SEL_BUTTON    : Z := 7.
(* Buttons in I - N row *)
Definition N_BUTTON : Z := 2.
Definition M_BUTTON : Z := 3.
Definition L_BUTTON : Z := 4.
Definition K_BUTTON : Z := 5.
Definition J_BUTTON : Z := 6.
Definition I_BUTTON : Z := 7.
(* Buttons in A - H row *)
Definition H_BUTTON : Z := 0.
Definition G_BUTTON : Z := 1.
Definition F_BUTTON : Z := 2.
Definition E_BUTTON : Z := 3.
Definition D_BUTTON : Z := 4.
Definition C_BUTTON : Z := 5.
Definition B_BUTTON : Z := 6.
Definition A_BUTTON : Z := 7.

(* Arduino input *)
Definition nesData  : Z := 4.
(* Arduino outputs *)
Definition nesClock : Z := 5.
Definition nesLatch : Z := 6.
(* Row selection outputs *)
Definition nesAH    : Z := 7.
Definition nesIN    : Z := 8.

(* ===================================================================== *)
(** ** State, trace and the sketch monad                                  *)
(* ===================================================================== *)

(** Calls that leave the sketch, in the order they are made. *)
Inductive event : Type :=
| PinMode (pin : Z) (mode : pin_mode)
| DigitalWrite (pin : Z) (v : level)
| DigitalRead (pin : Z) (v : level)
| Delay (ms : Z)
| KeyboardBegin
| KeyboardPress (key : Z)
| KeyboardReleaseAll.

(** The global variables of the sketch, together with the data-line
    oracle: [dataLine k] is the level the [k]-th [digitalRead] finds, and
    [sampled] counts the reads made so far. *)
Record machine : Type := mkMachine {
  nesRegister     : Z;
  lastPressedKey  : Z;
  isButtonPressed : bool;
  dataLine        : nat -> level;
  sampled         : nat
}.

Definition M (A : Type) : Type := machine -> A * machine * list event.

Definition ret {A} (a : A) : M A := fun s => (a, s, []).

Definition bind {A B} (m : M A) (k : A -> M B) : M B :=
  fun s =>
    let '(a, s1, t1) := m s in
    let '(b, s2, t2) := k a s1 in
    (b, s2, t1 ++ t2).

Notation "x <- m ;; k" := (bind m (fun x => k))
  (at level 61, m at next level, right associativity).
Notation "m ;; k" := (bind m (fun _ => k))
  (at level 61, right associativity).

Definition emit (e : event) : M unit := fun s => (tt, s, [e]).

Definition when (c : bool) (m : M unit) : M unit :=
  if c then m else ret tt.

Definition result {A} (r : A * machine * list event) : A := fst (fst r).
Definition final {A} (r : A * machine * list event) : machine := snd (fst r).
Definition events {A} (r : A * machine * list event) : list event := snd r.

(** *** Board primitives *)

Definition pinMode (pin : Z) (mode : pin_mode) : M unit :=
  emit (PinMode pin mode).

Definition digitalWrite (pin : Z) (v : level) : M unit :=
  emit (DigitalWrite pin v).

Definition digitalRead (pin : Z) : M level :=
  fun s =>
    let v := dataLine s (sampled s) in
    (v,
     mkMachine (nesRegister s) (lastPressedKey s) (isButtonPressed s)
               (dataLine s) (S (sampled s)),
     [DigitalRead pin v]).

Definition delay (ms : Z) : M unit := emit (Delay ms).

(** *** Access to the global variables *)

Definition get_nesRegister : M Z := fun s => (nesRegister s, s, []).
Definition set_nesRegister (v : Z) : M unit :=
  fun s => (tt, mkMachine (to_byte v) (lastPressedKey s) (isButtonPressed s)
                          (dataLine s) (sampled s), []).

Definition get_lastPressedKey : M Z := fun s => (lastPressedKey s, s, []).
Definition set_lastPressedKey (v : Z) : M unit :=
  fun s => (tt, mkMachine (nesRegister s) (to_char v) (isButtonPressed s)
                          (dataLine s) (sampled s), []).

Definition get_isButtonPressed : M bool :=
  fun s => (isButtonPressed s, s, []).
Definition set_isButtonPressed (v : bool) : M unit :=
  fun s => (tt, mkMachine (nesRegister s) (lastPressedKey s) v
                          (dataLine s) (sampled s), []).

(* ===================================================================== *)
(** ** Row acquisition                                                    *)
(* ===================================================================== *)

(** [if (digitalRead(nesData) == LOW) bitClear(tempData, bit);] *)
Definition sample (tempData bit : Z) : M Z :=
  v <- digitalRead nesData ;;
  ret (if level_eqb v LOW then bitClear tempData bit else tempData).

(** [digitalWrite(pin, HIGH); digitalWrite(pin, LOW);] *)
Definition pulse (pin : Z) : M unit :=
  digitalWrite pin HIGH ;;
  digitalWrite pin LOW.

Definition readAHrow : M Z :=
  let tempData := 255 in
  (* Set outputs for checking A - H row *)
  digitalWrite nesAH LOW ;;
  digitalWrite nesIN HIGH ;;
  (* Pulse the latch *)
  pulse nesLatch ;;
  (* [H] button is available upon latching *)
  tempData <- sample tempData H_BUTTON ;;
  (* [G] button *)
  pulse nesClock ;;
  tempData <- sample tempData G_BUTTON ;;
  (* [F] button *)
  pulse nesClock ;;
  tempData <- sample tempData F_BUTTON ;;
  (* [E] button *)
  pulse nesClock ;;
  tempData <- sample tempData E_BUTTON ;;
  (* [D] button *)
  pulse nesClock ;;
  tempData <- sample tempData D_BUTTON ;;
  (* [C] button *)
  pulse nesClock ;;
  tempData <- sample tempData C_BUTTON ;;
  (* [B] button *)
  pulse nesClock ;;
  tempData <- sample tempData B_BUTTON ;;
  (* [A] button *)
  pulse nesClock ;;
  tempData <- sample tempData A_BUTTON ;;
  ret (to_byte tempData).

Definition readINrow : M Z :=
  let tempData := 255 in
  (* Set outputs for checking I - N row *)
  digitalWrite nesAH HIGH ;;
  digitalWrite nesIN LOW ;;
  (* Pulse the latch *)
  pulse nesLatch ;;
  (* In I-N row first two bits are not used so go to third bit *)
  pulse nesClock ;;
  (* [N] button *)
  pulse nesClock ;;
  tempData <- sample tempData N_BUTTON ;;
  (* [M] button *)
  pulse nesClock ;;
  tempData <- sample tempData M_BUTTON ;;
  (* [L] button *)
  pulse nesClock ;;
  tempData <- sample tempData L_BUTTON ;;
  (* [K] button *)
  pulse nesClock ;;
  tempData <- sample tempData K_BUTTON ;;
  (* [J] button *)
  pulse nesClock ;;
  tempData <- sample tempData J_BUTTON ;;
  (* [I] button *)
  pulse nesClock ;;
  tempData <- sample tempData I_BUTTON ;;
  ret (to_byte tempData).

Definition readCommandRow : M Z :=
  let tempData := 255 in
  (* Set outputs for checking command buttons row *)
  digitalWrite nesAH HIGH ;;
  digitalWrite nesIN HIGH ;;
  (* Pulse the latch *)
  pulse nesLatch ;;
  (* In command buttons row first bit is not used so go to second bit *)
  pulse nesClock ;;
  tempData <- sample tempData RON_BUTTON ;;
  (* [RIICHI] button *)
  pulse nesClock ;;
  tempData <- sample tempData RIICHI_BUTTON ;;
  (* [CHI] button *)
  pulse nesClock ;;
  tempData <- sample tempData CHI_BUTTON ;;
  (* [PON] button *)
  pulse nesClock ;;
  tempData <- sample tempData PON_BUTTON ;;
  (* [KAN] button *)
  pulse nesClock ;;
  tempData <- sample tempData KAN_BUTTON ;;
  (* [ST] button *)
  pulse nesClock ;;
  tempData <- sample tempData ST_BUTTON ;;
  (* [SEL] button *)
  pulse nesClock ;;
  tempData <- sample tempData SEL_BUTTON ;;
  ret (to_byte tempData).

(* ===================================================================== *)
(** ** Keyboard boundary and the polling loop                             *)
(* ===================================================================== *)

(** Key codes of the modifier keys.  [Keyboard.h] belongs to the Arduino
    Keyboard library, not to the sketch, so its macros are parameters of
    the model. *)
Record KeyboardH : Type := mkKeyboardH {
  KEY_LEFT_CTRL  : Z;
  KEY_LEFT_SHIFT : Z;
  KEY_LEFT_ALT   : Z
}.

(** The values the Arduino Keyboard library gives to these macros. *)
Definition arduino_keyboard : KeyboardH := mkKeyboardH 128 129 130.

(** [void keyboardButtonPress(char key)] *)
Definition keyboardButtonPress (key : Z) : M unit :=
  let key := to_char key in
  (* Indicate that the button was pressed *)
  set_isButtonPressed true ;;
  (* Press the button without release *)
  emit (KeyboardPress key) ;;
  (* Set info about last pressed button *)
  set_lastPressedKey key.

(** [if (bitRead(nesRegister, bit) == 0) keyboardButtonPress(key);] *)
Definition ifPressed (bit key : Z) : M unit :=
  r <- get_nesRegister ;;
  when (bitRead r bit =? 0) (keyboardButtonPress key).

Section Sketch.

Variable kb : KeyboardH.

(** [void setup()] *)
Definition setup : M unit :=
  (* Set appropriate pins to inputs *)
  pinMode nesData INPUT ;;
  (* Set appropriate pins to outputs *)
  pinMode nesClock OUTPUT ;;
  pinMode nesLatch OUTPUT ;;
  pinMode nesAH OUTPUT ;;
  pinMode nesIN OUTPUT ;;
  (* Set initial states *)
  digitalWrite nesClock LOW ;;
  digitalWrite nesLatch LOW ;;
  (* Initialize control over the keyboard *)
  emit KeyboardBegin.

(** The tests of [loop] on the A-H row register. *)
Definition loop_AH : M unit :=
  ifPressed H_BUTTON (chr "h") ;;
  ifPressed G_BUTTON (chr "g") ;;
  ifPressed F_BUTTON (chr "f") ;;
  ifPressed E_BUTTON (chr "e") ;;
  ifPressed D_BUTTON (chr "d") ;;
  ifPressed C_BUTTON (chr "c") ;;
  ifPressed B_BUTTON (chr "b") ;;
  ifPressed A_BUTTON (chr "a").

(** The tests of [loop] on the I-N row register. *)
Definition loop_IN : M unit :=
  ifPressed N_BUTTON (chr "n") ;;
  ifPressed M_BUTTON (chr "m") ;;
  ifPressed L_BUTTON (chr "l") ;;
  ifPressed K_BUTTON (chr "k") ;;
  ifPressed J_BUTTON (chr "j") ;;
  ifPressed I_BUTTON (chr "i").

(** The tests of [loop] on the command row register. *)
Definition loop_Command : M unit :=
  ifPressed RON_BUTTON (chr "z") ;;
  ifPressed RIICHI_BUTTON (KEY_LEFT_SHIFT kb) ;;
  ifPressed CHI_BUTTON (chr " ") ;;
  ifPressed PON_BUTTON (KEY_LEFT_ALT kb) ;;
  ifPressed KAN_BUTTON (KEY_LEFT_CTRL kb) ;;
  ifPressed ST_BUTTON (chr "1") ;;
  ifPressed SEL_BUTTON (chr "5").

(** The end of [loop]: bounce delay while a button is pressed, one
    release of all keys otherwise. *)
Definition loop_release : M unit :=
  pressed <- get_isButtonPressed ;;
  (if pressed
   then delay 80
   else
     last <- get_lastPressedKey ;;
     when (negb (last =? 0))
          (emit KeyboardReleaseAll ;;
           set_lastPressedKey 0)) ;;
  (* for next iteration *)
  set_isButtonPressed false.

(** [void loop()] *)
Definition loop : M unit :=
  (* Reading first row - [A] to [H] buttons *)
  r <- readAHrow ;;
  set_nesRegister r ;;
  loop_AH ;;
  (* Reading second row - [I] to [N] buttons *)
  r <- readINrow ;;
  set_nesRegister r ;;
  loop_IN ;;
  (* Reading third row - command buttons *)
  r <- readCommandRow ;;
  set_nesRegister r ;;
  loop_Command ;;
  loop_release.

(** [n] consecutive polling cycles. *)
Fixpoint cycles (n : nat) : M unit :=
  match n with
  | O => ret tt
  | S n' => loop ;; cycles n'
  end.

(** Power-up: [setup] once, then [n] polling cycles. *)
Definition sketch (n : nat) : M unit := setup ;; cycles n.

End Sketch.

(** The state of the globals at power-up. *)
Definition power_up (d : nat -> level) : machine :=
  mkMachine 0 0 false d 0.

(* ===================================================================== *)
(** ** Logical buttons and the tables of the specification                *)
(* ===================================================================== *)

Inductive RowSelector : Type := ROW_AH | ROW_IN | ROW_CMD.

Inductive button : Type :=
| BtnA | BtnB | BtnC | BtnD | BtnE | BtnF | BtnG | BtnH
| BtnI | BtnJ | BtnK | BtnL | BtnM | BtnN
| BtnRON | BtnRIICHI | BtnCHI | BtnPON | BtnKAN | BtnST | BtnSEL.

(** Buttons of a row, in the order the loop tests them. *)
Definition row_buttons (r : RowSelector) : list button :=
  match r with
  | ROW_AH  => [BtnH; BtnG; BtnF; BtnE; BtnD; BtnC; BtnB; BtnA]
  | ROW_IN  => [BtnN; BtnM; BtnL; BtnK; BtnJ; BtnI]
  | ROW_CMD => [BtnRON; BtnRIICHI; BtnCHI; BtnPON; BtnKAN; BtnST; BtnSEL]
  end.

(** Bit position of a button in the register of its row: the named
    constants of the sketch. *)
Definition position (b : button) : Z :=
  match b with
  | BtnA => A_BUTTON | BtnB => B_BUTTON | BtnC => C_BUTTON
  | BtnD => D_BUTTON | BtnE => E_BUTTON | BtnF => F_BUTTON
  | BtnG => G_BUTTON | BtnH => H_BUTTON
  | BtnI => I_BUTTON | BtnJ => J_BUTTON | BtnK => K_BUTTON
  | BtnL => L_BUTTON | BtnM => M_BUTTON | BtnN => N_BUTTON
  | BtnRON => RON_BUTTON | BtnRIICHI => RIICHI_BUTTON
  | BtnCHI => CHI_BUTTON | BtnPON => PON_BUTTON | BtnKAN => KAN_BUTTON
  | BtnST => ST_BUTTON | BtnSEL => SEL_BUTTON
  end.

(** The bit-position table as the specification words it for the A-H
    row: 0=H, 1=G, 2=F, 3=E, 4=D, 5=C, 6=B, 7=A. *)
Definition spec_AH_position (b : button) : option Z :=
  match b with
  | BtnH => Some 0 | BtnG => Some 1 | BtnF => Some 2 | BtnE => Some 3
  | BtnD => Some 4 | BtnC => Some 5 | BtnB => Some 6 | BtnA => Some 7
  | _ => None
  end.

(** The key-code table as the specification words it: A to N map to
    their lowercase letters, RON to 'z', RIICHI to left-shift, CHI to
    space, PON to left-alt, KAN to left-ctrl, ST to '1', SEL to '5'. *)
Definition spec_keycode (kb : KeyboardH) (b : button) : Z :=
  match b with
  | BtnA => chr "a" | BtnB => chr "b" | BtnC => chr "c" | BtnD => chr "d"
  | BtnE => chr "e" | BtnF => chr "f" | BtnG => chr "g" | BtnH => chr "h"
  | BtnI => chr "i" | BtnJ => chr "j" | BtnK => chr "k" | BtnL => chr "l"
  | BtnM => chr "m" | BtnN => chr "n"
  | BtnRON => chr "z"
  | BtnRIICHI => KEY_LEFT_SHIFT kb
  | BtnCHI => chr " "
  | BtnPON => KEY_LEFT_ALT kb
  | BtnKAN => KEY_LEFT_CTRL kb
  | BtnST => chr "1"
  | BtnSEL => chr "5"
  end.

(** A button reads as pressed in a register when its bit is 0. *)
Definition reads_pressed (bits : Z) (b : button) : bool :=
  negb (Z.testbit bits (position b)).

(** The buttons of a row that a register value shows as pressed. *)
Definition decode (r : RowSelector) (bits : Z) : list button :=
  filter (reads_pressed bits) (row_buttons r).

(** The three registers one polling cycle reads, starting from [s]. *)
Definition poll (s : machine) : Z * Z * Z :=
  let r1 := readAHrow s in
  let r2 := readINrow (final r1) in
  let r3 := readCommandRow (final r2) in
  (result r1, result r2, result r3).

(** The buttons read as pressed in the polling cycle starting from [s]. *)
Definition snapshot (s : machine) : list button :=
  let '(a, i, c) := poll s in
  decode ROW_AH a ++ decode ROW_IN i ++ decode ROW_CMD c.

(** The keyboard calls of a trace. *)
Definition is_keyboard (e : event) : bool :=
  match e with
  | KeyboardBegin | KeyboardPress _ | KeyboardReleaseAll => true
  | _ => false
  end.

Definition keyboard_calls (t : list event) : list event :=
  filter is_keyboard t.

(** The key presses of a trace: the "pressed" result of a cycle. *)
Definition pressed_keys (t : list event) : list Z :=
  flat_map (fun e => match e with KeyboardPress k => [k] | _ => [] end) t.

(* ===================================================================== *)
(** ** Vocabulary for traces and closed forms                             *)
(* ===================================================================== *)

(** The state after [k] more reads of the data line. *)
Definition bump (k : nat) (s : machine) : machine :=
  mkMachine (nesRegister s) (lastPressedKey s) (isButtonPressed s)
            (dataLine s) (k + sampled s).

(** The level found by the [i]-th read made from state [s] on. *)
Definition line (s : machine) (i : nat) : level := dataLine s (i + sampled s).

Definition level_bit (v : level) : bool :=
  match v with LOW => false | HIGH => true end.

(** The integer whose bit [i] is the [i]-th level of the list. *)
Fixpoint pack (ls : list level) : Z :=
  match ls with
  | [] => 0
  | v :: r => Z.b2z (level_bit v) + 2 * pack r
  end.

Definition select_row (ah inn : level) : list event :=
  [DigitalWrite nesAH ah; DigitalWrite nesIN inn].

Definition latch_pulse : list event :=
  [DigitalWrite nesLatch HIGH; DigitalWrite nesLatch LOW].

Definition clock_pulse : list event :=
  [DigitalWrite nesClock HIGH; DigitalWrite nesClock LOW].

(** One clock pulse followed by one read of the data line, per level. *)
Definition clocked_reads (ls : list level) : list event :=
  flat_map (fun v => clock_pulse ++ [DigitalRead nesData v]) ls.

Definition is_read (e : event) : bool :=
  match e with DigitalRead _ _ => true | _ => false end.

Definition is_write (e : event) : bool :=
  match e with DigitalWrite _ _ => true | _ => false end.

(** Number of reads of the data line in a trace. *)
Definition count_reads (t : list event) : nat := length (filter is_read t).

(** The [digitalWrite] calls of a trace. *)
Definition writes (t : list event) : list event := filter is_write t.


(** A data line on which only the reads whose index is in [lows] find
    [LOW]. *)
Definition low_at (lows : list nat) : nat -> level :=
  fun k => if existsb (Nat.eqb k) lows then LOW else HIGH.

(** The globals after one call of [keyboardButtonPress]. *)
Definition press1 (s : machine) (key : Z) : machine :=
  mkMachine (nesRegister s) (to_char key) true (dataLine s) (sampled s).

(** The globals after [keyboardButtonPress] was called for each key. *)
Definition press_state (keys : list Z) (s : machine) : machine :=
  fold_left press1 keys s.

(** The keyboard calls [keyboardButtonPress] makes for a list of keys. *)
Definition presses (keys : list Z) : list event :=
  map (fun k => KeyboardPress (to_char k)) keys.

(** The globals after the end of [loop]. *)
Definition release_state (s : machine) : machine :=
  mkMachine (nesRegister s)
            (if isButtonPressed s then lastPressedKey s else 0)
            false (dataLine s) (sampled s).

(** The calls made by the end of [loop]. *)
Definition release_events (s : machine) : list event :=
  if isButtonPressed s then [Delay 80]
  else if lastPressedKey s =? 0 then [] else [KeyboardReleaseAll].

(** The globals after [nesRegister = r]. *)
Definition with_register (r : Z) (s : machine) : machine :=
  mkMachine (to_byte r) (lastPressedKey s) (isButtonPressed s)
            (dataLine s) (sampled s).

(** The keys of the buttons of a row that a register shows as pressed. *)
Definition row_keys (kb : KeyboardH) (r : RowSelector) (bits : Z) : list Z :=
  map (spec_keycode kb) (decode r bits).

(** One row of [loop]: read the row, store it in [nesRegister], press the
    key of each button the register shows as pressed.  Gives the state
    after the row and the calls made. *)
Definition row_stage (kb : KeyboardH) (row : RowSelector) (read : M Z)
    (s : machine) : machine * list event :=
  let r := read s in
  let s1 := with_register (result r) (final r) in
  let keys := row_keys kb row (nesRegister s1) in
  (press_state keys s1, events r ++ presses keys).

(** The keys one polling cycle presses, in order. *)
Definition cycle_keys (kb : KeyboardH) (s : machine) : list Z :=
  map (spec_keycode kb) (snapshot s).

(** What the rest of the sketch can see of the data line. *)
Definition input_view (s : machine) : (nat -> level) * nat :=
  (dataLine s, sampled s).

(** The two globals of the keyboard control. *)
Definition press_view (s : machine) : Z * bool :=
  (lastPressedKey s, isButtonPressed s).

(** A row read that takes [k] samples and depends on nothing but the
    data line. *)
Definition reads_input (read : M Z) (k : nat) : Prop :=
  (forall s, final (read s) = bump k s) /\
  (forall s s', input_view s = input_view s' ->
     result (read s) = result (read s') /\ events (read s) = events (read s')).

(** The three registers of the cycle starting from [s]. *)
Definition regAH (s : machine) : Z := result (readAHrow s).
Definition regIN (s : machine) : Z := result (readINrow (bump 8 s)).
Definition regCommand (s : machine) : Z := result (readCommandRow (bump 14 s)).

(** The state a polling cycle ends in. *)
Definition cycle_state (kb : KeyboardH) (s : machine) : machine :=
  release_state
    (press_state (cycle_keys kb s) (with_register (regCommand s) (bump 21 s))).

(** The calls a polling cycle makes. *)
Definition cycle_events (kb : KeyboardH) (s : machine) : list event :=
  events (readAHrow s) ++ presses (row_keys kb ROW_AH (regAH s))
    ++ events (readINrow (bump 8 s)) ++ presses (row_keys kb ROW_IN (regIN s))
    ++ events (readCommandRow (bump 14 s))
    ++ presses (row_keys kb ROW_CMD (regCommand s))
    ++ release_events (press_state (cycle_keys kb s) s).

(** The macros of [Keyboard.h] are key codes, none of them the NUL
    character. *)
Definition modifiers_not_nul (kb : KeyboardH) : Prop :=
  to_char (KEY_LEFT_CTRL kb) <> 0 /\
  to_char (KEY_LEFT_SHIFT kb) <> 0 /\
  to_char (KEY_LEFT_ALT kb) <> 0.

(** The character [keyboardButtonPress] hands to [Keyboard.press] for a
    button. *)
Definition key_char (kb : KeyboardH) (b : button) : Z :=
  to_char (spec_keycode kb b).

(** Keys the host holds down after a trace, starting from the keys
    [held]: [Keyboard.press] adds a key, [Keyboard.releaseAll] drops them
    all. *)
Fixpoint held_after (t : list event) (held : list Z) : list Z :=
  match t with
  | [] => held
  | KeyboardPress k :: r => held_after r (k :: held)
  | KeyboardReleaseAll :: r => held_after r []
  | _ :: r => held_after r held
  end.

(** Number of [Keyboard.press] calls in a trace. *)
Definition count_presses (t : list event) : nat := length (pressed_keys t).

(** Number of [Keyboard.releaseAll] calls in a trace. *)
Definition count_releases (t : list event) : nat :=
  length (filter (fun e => match e with KeyboardReleaseAll => true
                                       | _ => false end) t).

(** *** The two row-select lines *)

(** One line of the output port: its direction bit and its output bit.
    A line is driven at the level of its output bit while its direction
    is [OUTPUT]. *)
Record line_state : Type := mkLine {
  direction : pin_mode;
  output    : level
}.

(** The lines [nesAH] and [nesIN], in this order. *)
Definition select_lines : Type := line_state * line_state.

(** [pinMode] as the AVR core does it: [OUTPUT] sets the direction bit
    and leaves the output bit as it is; [INPUT] clears both. *)
Definition set_mode (m : pin_mode) (l : line_state) : line_state :=
  match m with
  | OUTPUT => mkLine OUTPUT (output l)
  | INPUT => mkLine INPUT LOW
  end.

(** [digitalWrite] sets the output bit. *)
Definition set_level (v : level) (l : line_state) : line_state :=
  mkLine (direction l) v.

Definition drive (st : select_lines) (e : event) : select_lines :=
  match e with
  | PinMode pin m =>
      if pin =? nesAH then (set_mode m (fst st), snd st)
      else if pin =? nesIN then (fst st, set_mode m (snd st))
      else st
  | DigitalWrite pin v =>
      if pin =? nesAH then (set_level v (fst st), snd st)
      else if pin =? nesIN then (fst st, set_level v (snd st))
      else st
  | _ => st
  end.

(** The select lines at power-up: both inputs, their output bits at the
    levels [p0] the port powers up with. *)
Definition power_up_lines (p0 : level * level) : select_lines :=
  (mkLine INPUT (fst p0), mkLine INPUT (snd p0)).

(** The output bits of a port of the ATmega32U4, the controller the
    sketch is written for, after reset. *)
Definition reset_levels : level * level := (LOW, LOW).

(** The select lines after a trace, from power-up. *)
Definition lines_after (p0 : level * level) (t : list event) : select_lines :=
  fold_left drive t (power_up_lines p0).

Definition driven_low (l : line_state) : bool :=
  match direction l, output l with
  | OUTPUT, LOW => true
  | _, _ => false
  end.

(** The unused selector combination: both lines driven [LOW]. *)
Definition both_low (st : select_lines) : bool :=
  driven_low (fst st) && driven_low (snd st).

(** The row the select lines choose, when both are driven and their
    levels are one of the three used combinations. *)
Definition selected (st : select_lines) : option RowSelector :=
  match direction (fst st), direction (snd st) with
  | OUTPUT, OUTPUT =>
      match output (fst st), output (snd st) with
      | LOW, HIGH => Some ROW_AH
      | HIGH, LOW => Some ROW_IN
      | HIGH, HIGH => Some ROW_CMD
      | LOW, LOW => None
      end
  | _, _ => None
  end.

Definition selects (st : select_lines) : bool :=
  match selected st with Some _ => true | None => false end.

(** The select lines choose a row after every prefix of the trace. *)
Fixpoint safe_run (st : select_lines) (t : list event) : bool :=
  selects st &&
  match t with
  | [] => true
  | e :: r => safe_run (drive st e) r
  end.

(** The select lines while a row is chosen. *)
Definition lines_of (r : RowSelector) : select_lines :=
  match r with
  | ROW_AH => (mkLine OUTPUT LOW, mkLine OUTPUT HIGH)
  | ROW_IN => (mkLine OUTPUT HIGH, mkLine OUTPUT LOW)
  | ROW_CMD => (mkLine OUTPUT HIGH, mkLine OUTPUT HIGH)
  end.

(** The state in which [nesRegister] holds [bits]. *)
Definition holding (bits : Z) (s : machine) : machine :=
  mkMachine bits (lastPressedKey s) (isButtonPressed s)
            (dataLine s) (sampled s).

(** *** Scenarios *)

(** Power-up with button [H] down during the first cycle only: the first
    read of the first cycle finds [LOW]. *)
Definition tap_H : machine := power_up (low_at [0%nat]).

(** Power-up with button [H] down during the first two cycles: the first
    read of each of them (reads 0 and 21) finds [LOW]. *)
Definition hold_H : machine := power_up (low_at [0%nat; 21%nat]).

(* ===================================================================== *)
(** ** Further vocabulary: samples, pins and traces                       *)
(* ===================================================================== *)

(** The level that shows a bit on the data line: 1 is [HIGH]. *)
Definition bit_level (b : bool) : level := if b then HIGH else LOW.

(** A data line that shifts out the bits of [v], least significant bit
    first, one per read. *)
Definition shift_out (v : Z) : nat -> level :=
  fun k => bit_level (Z.testbit v (Z.of_nat k)).


(** Writes to one of the two row-select lines. *)
Definition is_select_write (e : event) : bool :=
  match e with
  | DigitalWrite pin _ => (pin =? nesAH) || (pin =? nesIN)
  | _ => false
  end.

Definition is_delay (e : event) : bool :=
  match e with Delay _ => true | _ => false end.

(** The [delay] calls of a trace. *)
Definition delays (t : list event) : list event := filter is_delay t.

(** Power-up with [H] down during the first cycle and [G], alone, during
    the second: read 0 and read 22 (the second read of the second cycle)
    find [LOW]. *)
Definition roll_H_G : machine := power_up (low_at [0%nat; 22%nat]).

(** *** The clock and latch lines *)

(** The lines [nesClock] and [nesLatch], in this order, with their
    direction and output bits as for the select lines. *)
Definition drive_clock_latch (st : line_state * line_state) (e : event)
    : line_state * line_state :=
  match e with
  | PinMode pin m =>
      if pin =? nesClock then (set_mode m (fst st), snd st)
      else if pin =? nesLatch then (fst st, set_mode m (snd st))
      else st
  | DigitalWrite pin v =>
      if pin =? nesClock then (set_level v (fst st), snd st)
      else if pin =? nesLatch then (fst st, set_level v (snd st))
      else st
  | _ => st
  end.

(** The clock and latch lines after a trace, from power-up with the
    output bits at the levels [p0]. *)
Definition clock_latch_after (p0 : level * level) (t : list event)
    : line_state * line_state :=
  fold_left drive_clock_latch t (power_up_lines p0).

(** Clock and latch both driven [LOW]: no pulse under way. *)
Definition both_idle (st : line_state * line_state) : bool :=
  driven_low (fst st) && driven_low (snd st).

(** Every read of the trace is made with clock and latch idle. *)
Fixpoint reads_settled (st : line_state * line_state)
    (t : list event) : bool :=
  match t with
  | [] => true
  | e :: r =>
      (match e with DigitalRead _ _ => both_idle st | _ => true end)
      && reads_settled (drive_clock_latch st e) r
  end.

(** Clock and latch at rest. *)
Definition idle_lines : line_state * line_state :=
  (mkLine OUTPUT LOW, mkLine OUTPUT LOW).

(** *** Use of the pins *)

Definition is_output_pin (pin : Z) : bool :=
  (pin =? nesClock) || (pin =? nesLatch) || (pin =? nesAH) || (pin =? nesIN).

(** How the sketch uses a pin: the data pin is an input and the only pin
    read; clock, latch and the two select pins are outputs and the only
    pins written. *)
Definition pin_use (e : event) : bool :=
  match e with
  | PinMode pin INPUT => pin =? nesData
  | PinMode pin OUTPUT => is_output_pin pin
  | DigitalRead pin _ => pin =? nesData
  | DigitalWrite pin _ => is_output_pin pin
  | _ => true
  end.

Definition is_begin (e : event) : bool :=
  match e with KeyboardBegin => true | _ => false end.
(* ===================================================================== *)
(** ** Closed forms of the row reads                                      *)
(* ===================================================================== *)

Ltac run_row s :=
  let reg := fresh "reg" in
  let lk := fresh "lk" in
  let bp := fresh "bp" in
  let dl := fresh "dl" in
  let n := fresh "n" in
  destruct s as [reg lk bp dl n];
  cbv [readAHrow readINrow readCommandRow bind pulse sample digitalWrite
       digitalRead emit ret app dataLine sampled nesRegister lastPressedKey
       isButtonPressed line map seq bump Nat.add select_row latch_pulse
       clock_pulse clocked_reads flat_map];
  repeat match goal with
         | |- context [level_eqb (dl ?k) LOW] =>
             let v := fresh "v" in
             generalize (dl k); intro v; destruct v
         end;
  reflexivity.

Lemma readAHrow_run (s : machine) :
  readAHrow s =
  (pack (map (line s) (seq 0 8)),
   bump 8 s,
   select_row LOW HIGH ++ latch_pulse ++ [DigitalRead nesData (line s 0)]
     ++ clocked_reads (map (line s) (seq 1 7))).
Proof. run_row s. Qed.

Lemma readINrow_run (s : machine) :
  readINrow s =
  (pack (HIGH :: HIGH :: map (line s) (seq 0 6)),
   bump 6 s,
   select_row HIGH LOW ++ latch_pulse ++ clock_pulse
     ++ clocked_reads (map (line s) (seq 0 6))).
Proof. run_row s. Qed.

Lemma readCommandRow_run (s : machine) :
  readCommandRow s =
  (pack (HIGH :: map (line s) (seq 0 7)),
   bump 7 s,
   select_row HIGH HIGH ++ latch_pulse
     ++ clocked_reads (map (line s) (seq 0 7))).
Proof. run_row s. Qed.

Lemma pack_testbit (ls : list level) (i : nat) :
  Z.testbit (pack ls) (Z.of_nat i) = level_bit (nth i ls LOW).
Proof.
  revert i; induction ls as [|v r IH]; intros i.
  - destruct i; apply Z.testbit_0_l.
  - cbn [pack nth]. rewrite Z.add_comm. destruct i as [|i].
    + apply Z.testbit_0_r.
    + rewrite Nat2Z.inj_succ, Z.testbit_succ_r by lia. apply IH.
Qed.

Lemma pack_range (ls : list level) :
  0 <= pack ls < 2 ^ Z.of_nat (length ls).
Proof.
  induction ls as [|v r IH].
  - cbn. lia.
  - cbn [pack length]. rewrite Nat2Z.inj_succ, Z.pow_succ_r by lia.
    destruct v; cbn [level_bit Z.b2z]; lia.
Qed.

(* ===================================================================== *)
(** ** Closed forms of the loop                                           *)
(* ===================================================================== *)

Lemma to_char_idem (z : Z) : to_char (to_char z) = to_char z.
Proof.
  unfold to_char.
  replace ((z + 128) mod 256 - 128 + 128) with ((z + 128) mod 256) by lia.
  rewrite Z.mod_mod by lia. reflexivity.
Qed.

Lemma bitRead_eqb (v k : Z) :
  0 <= k -> (bitRead v k =? 0) = negb (Z.testbit v k).
Proof.
  intros Hk. unfold bitRead.
  change 1 with (Z.ones 1). rewrite Z.land_ones by lia.
  change (2 ^ 1) with 2. rewrite <- Z.bit0_mod, Z.shiftr_spec by lia.
  rewrite Z.add_0_l. destruct (Z.testbit v k); reflexivity.
Qed.

Lemma ifPressed_run (bit key : Z) (s : machine) :
  0 <= bit ->
  ifPressed bit key s =
  if Z.testbit (nesRegister s) bit then (tt, s, [])
  else (tt, press1 s key, [KeyboardPress (to_char key)]).
Proof.
  intros Hb. destruct s as [reg lk bp dl n].
  cbv [ifPressed bind get_nesRegister nesRegister when].
  rewrite bitRead_eqb by lia.
  destruct (Z.testbit reg bit); cbn [negb]; [reflexivity|].
  cbv [keyboardButtonPress bind set_isButtonPressed emit set_lastPressedKey
       nesRegister lastPressedKey isButtonPressed dataLine sampled app].
  rewrite to_char_idem. reflexivity.
Qed.

Lemma ifPressed_bind {B} (bit key : Z) (k : M B) (s : machine) :
  0 <= bit ->
  (ifPressed bit key ;; k) s =
  if Z.testbit (nesRegister s) bit
  then (let '(b, s2, t2) := k s in (b, s2, t2))
  else (let '(b, s2, t2) := k (press1 s key) in
        (b, s2, KeyboardPress (to_char key) :: t2)).
Proof.
  intros Hb. unfold bind at 1. rewrite ifPressed_run by exact Hb.
  destruct (Z.testbit (nesRegister s) bit); reflexivity.
Qed.

Ltac run_scan s :=
  let reg := fresh "reg" in
  let lk := fresh "lk" in
  let bp := fresh "bp" in
  let dl := fresh "dl" in
  let n := fresh "n" in
  destruct s as [reg lk bp dl n];
  cbv [loop_AH loop_IN loop_Command
       row_keys decode row_buttons filter reads_pressed position
       H_BUTTON G_BUTTON F_BUTTON E_BUTTON D_BUTTON C_BUTTON B_BUTTON
       A_BUTTON N_BUTTON M_BUTTON L_BUTTON K_BUTTON J_BUTTON I_BUTTON
       RON_BUTTON RIICHI_BUTTON CHI_BUTTON PON_BUTTON KAN_BUTTON ST_BUTTON
       SEL_BUTTON nesRegister];
  repeat (rewrite ifPressed_bind by lia; cbn [nesRegister press1]);
  rewrite ?ifPressed_run by lia; cbn [nesRegister press1];
  repeat match goal with
         | |- context [Z.testbit reg ?k] =>
             let b := fresh "b" in
             generalize (Z.testbit reg k); intro b; destruct b
         end;
  reflexivity.

Lemma loop_AH_run (kb : KeyboardH) (s : machine) :
  loop_AH s =
  (tt, press_state (row_keys kb ROW_AH (nesRegister s)) s,
   presses (row_keys kb ROW_AH (nesRegister s))).
Proof. run_scan s. Qed.

Lemma loop_IN_run (kb : KeyboardH) (s : machine) :
  loop_IN s =
  (tt, press_state (row_keys kb ROW_IN (nesRegister s)) s,
   presses (row_keys kb ROW_IN (nesRegister s))).
Proof. run_scan s. Qed.

Lemma loop_Command_run (kb : KeyboardH) (s : machine) :
  loop_Command kb s =
  (tt, press_state (row_keys kb ROW_CMD (nesRegister s)) s,
   presses (row_keys kb ROW_CMD (nesRegister s))).
Proof. run_scan s. Qed.

Lemma loop_release_run (s : machine) :
  loop_release s = (tt, release_state s, release_events s).
Proof.
  destruct s as [reg lk bp dl n].
  cbv [loop_release bind get_isButtonPressed get_lastPressedKey delay emit
       when set_isButtonPressed set_lastPressedKey release_state
       release_events nesRegister lastPressedKey isButtonPressed dataLine
       sampled ret].
  destruct bp; [reflexivity|].
  destruct (Z.eqb_spec lk 0) as [->|Hne]; reflexivity.
Qed.

Lemma row_stage_run {B} (kb : KeyboardH) (row : RowSelector)
    (read : M Z) (scan : M unit) (k : M B) (s : machine) :
  (forall s', scan s' =
     (tt, press_state (row_keys kb row (nesRegister s')) s',
      presses (row_keys kb row (nesRegister s')))) ->
  (r <- read ;; set_nesRegister r ;; scan ;; k) s =
  (let '(s1, t1) := row_stage kb row read s in
   let '(b, s2, t2) := k s1 in
   (b, s2, t1 ++ t2)).
Proof.
  intros Hscan. unfold row_stage, bind, set_nesRegister, with_register.
  destruct (read s) as [[r s0] t0]. cbn [result final events fst snd].
  rewrite Hscan. cbn [app nesRegister].
  destruct (k _) as [[b s2] t2].
  rewrite <- app_assoc. reflexivity.
Qed.

Lemma loop_run (kb : KeyboardH) (s : machine) :
  loop kb s =
  (let '(s1, t1) := row_stage kb ROW_AH readAHrow s in
   let '(s2, t2) := row_stage kb ROW_IN readINrow s1 in
   let '(s3, t3) := row_stage kb ROW_CMD readCommandRow s2 in
   (tt, release_state s3, t1 ++ t2 ++ t3 ++ release_events s3)).
Proof.
  unfold loop.
  rewrite (row_stage_run kb ROW_AH) by apply loop_AH_run.
  destruct (row_stage kb ROW_AH readAHrow s) as [s1 t1].
  rewrite (row_stage_run kb ROW_IN) by apply loop_IN_run.
  destruct (row_stage kb ROW_IN readINrow s1) as [s2 t2].
  rewrite (row_stage_run kb ROW_CMD) by apply loop_Command_run.
  destruct (row_stage kb ROW_CMD readCommandRow s2) as [s3 t3].
  rewrite loop_release_run. reflexivity.
Qed.

(** *** The rows read from the data line only *)

Lemma line_input (s s' : machine) (ks : list nat) :
  input_view s = input_view s' -> map (line s) ks = map (line s') ks.
Proof.
  unfold input_view, line. intros H. injection H as Hd Hn.
  rewrite Hd, Hn. reflexivity.
Qed.

Lemma readAHrow_input : reads_input readAHrow 8.
Proof.
  split.
  - intros s. rewrite readAHrow_run. reflexivity.
  - intros s s' H. rewrite !readAHrow_run. cbn [result events fst snd].
    change (line s 0) with (hd LOW (map (line s) [0%nat])).
    change (line s' 0) with (hd LOW (map (line s') [0%nat])).
    rewrite !(line_input s s') by exact H. split; reflexivity.
Qed.

Lemma readINrow_input : reads_input readINrow 6.
Proof.
  split.
  - intros s. rewrite readINrow_run. reflexivity.
  - intros s s' H. rewrite !readINrow_run. cbn [result events fst snd].
    rewrite !(line_input s s') by exact H. split; reflexivity.
Qed.

Lemma readCommandRow_input : reads_input readCommandRow 7.
Proof.
  split.
  - intros s. rewrite readCommandRow_run. reflexivity.
  - intros s s' H. rewrite !readCommandRow_run. cbn [result events fst snd].
    rewrite !(line_input s s') by exact H. split; reflexivity.
Qed.

(** *** Fields of the intermediate states *)

Lemma press_state_app (k1 k2 : list Z) (s : machine) :
  press_state (k1 ++ k2) s = press_state k2 (press_state k1 s).
Proof. apply fold_left_app. Qed.

Lemma press_state_input (keys : list Z) (s : machine) :
  input_view (press_state keys s) = input_view s.
Proof.
  revert s; induction keys as [|k r IH]; intros s; [reflexivity|].
  cbn [press_state fold_left]. apply (IH (press1 s k)).
Qed.

Lemma press_state_register (keys : list Z) (s : machine) :
  nesRegister (press_state keys s) = nesRegister s.
Proof.
  revert s; induction keys as [|k r IH]; intros s; [reflexivity|].
  cbn [press_state fold_left]. apply (IH (press1 s k)).
Qed.

Lemma press_state_view (keys : list Z) (s s' : machine) :
  press_view s = press_view s' ->
  press_view (press_state keys s) = press_view (press_state keys s').
Proof.
  revert s s'; induction keys as [|k r IH]; intros s s' H; [exact H|].
  cbn [press_state fold_left]. apply (IH (press1 s k) (press1 s' k)).
  reflexivity.
Qed.

Lemma press_state_pressed (keys : list Z) (s : machine) :
  isButtonPressed (press_state keys s) =
  match keys with [] => isButtonPressed s | _ :: _ => true end.
Proof.
  destruct keys as [|k r]; [reflexivity|].
  cbn [press_state fold_left]. generalize (press1 s k) (eq_refl : isButtonPressed (press1 s k) = true).
  induction r as [|k' r IH]; intros s' H; [exact H|].
  cbn [fold_left]. apply IH. reflexivity.
Qed.

Lemma last_nonempty {A} (x : A) (l : list A) (d d' : A) :
  last (x :: l) d = last (x :: l) d'.
Proof.
  revert x; induction l as [|y l IH]; intros x; [reflexivity|].
  change (last (y :: l) d = last (y :: l) d'). apply IH.
Qed.

Lemma press_state_last (keys : list Z) (s : machine) :
  lastPressedKey (press_state keys s) =
  last (map to_char keys) (lastPressedKey s).
Proof.
  revert s; induction keys as [|k r IH]; intros s; [reflexivity|].
  cbn [press_state fold_left]. fold (press_state r (press1 s k)).
  rewrite IH. cbn [press1 lastPressedKey map].
  destruct r as [|k' r']; [reflexivity|].
  cbn [map].
  transitivity (last (to_char k' :: map to_char r') (lastPressedKey s));
    [apply last_nonempty | reflexivity].
Qed.

Lemma machine_ext (s s' : machine) :
  nesRegister s = nesRegister s' ->
  press_view s = press_view s' ->
  input_view s = input_view s' ->
  s = s'.
Proof.
  destruct s, s'. unfold press_view, input_view. cbn.
  intros -> H1 H2. injection H1 as -> ->. injection H2 as -> ->. reflexivity.
Qed.

(** *** Decoding does not look above bit 7 *)

Lemma decode_to_byte (row : RowSelector) (r : Z) :
  decode row (to_byte r) = decode row r.
Proof.
  unfold decode. apply filter_ext_in. intros b _.
  unfold reads_pressed, to_byte. f_equal.
  change 256 with (2 ^ 8).
  apply Z.mod_pow2_bits_low. destruct b; cbv; reflexivity.
Qed.

Lemma row_keys_to_byte (kb : KeyboardH) (row : RowSelector) (r : Z) :
  row_keys kb row (to_byte r) = row_keys kb row r.
Proof. unfold row_keys. rewrite decode_to_byte. reflexivity. Qed.

(** *** One row of the loop, seen from the state the cycle started in *)

Lemma row_stage_views (kb : KeyboardH) (row : RowSelector) (read : M Z)
    (j : nat) (s s0 orig : machine) (keys0 : list Z) :
  reads_input read j ->
  input_view s = input_view s0 ->
  press_view s = press_view (press_state keys0 orig) ->
  input_view (fst (row_stage kb row read s)) = input_view (bump j s0) /\
  press_view (fst (row_stage kb row read s)) =
    press_view (press_state (keys0 ++ row_keys kb row (result (read s0))) orig) /\
  nesRegister (fst (row_stage kb row read s)) = to_byte (result (read s0)) /\
  snd (row_stage kb row read s) =
    events (read s0) ++ presses (row_keys kb row (result (read s0))).
Proof.
  intros [Hfin Hext] Hin Hpr.
  destruct (Hext s s0 Hin) as [Hres Hev].
  unfold row_stage. cbn [fst snd].
  rewrite Hfin, Hres, Hev. cbn [with_register nesRegister].
  rewrite row_keys_to_byte.
  repeat split.
  - rewrite press_state_input. unfold input_view in *. cbn.
    injection Hin as -> ->. reflexivity.
  - rewrite press_state_app. apply press_state_view.
    unfold press_view in *. cbn. exact Hpr.
  - apply press_state_register.
Qed.

(** *** The whole cycle *)

Lemma poll_eq (s : machine) : poll s = (regAH s, regIN s, regCommand s).
Proof.
  unfold poll, regAH, regIN, regCommand.
  rewrite (proj1 readAHrow_input), (proj1 readINrow_input). reflexivity.
Qed.

Lemma snapshot_eq (s : machine) :
  snapshot s =
  decode ROW_AH (regAH s) ++ decode ROW_IN (regIN s)
    ++ decode ROW_CMD (regCommand s).
Proof. unfold snapshot. rewrite poll_eq. reflexivity. Qed.

Lemma cycle_keys_eq (kb : KeyboardH) (s : machine) :
  cycle_keys kb s =
  row_keys kb ROW_AH (regAH s) ++ row_keys kb ROW_IN (regIN s)
    ++ row_keys kb ROW_CMD (regCommand s).
Proof.
  unfold cycle_keys, row_keys. rewrite snapshot_eq, !map_app. reflexivity.
Qed.

Lemma release_events_view (s s' : machine) :
  press_view s = press_view s' -> release_events s = release_events s'.
Proof.
  unfold press_view, release_events. intros H. injection H as -> ->.
  reflexivity.
Qed.

Lemma release_state_ext (s s' : machine) :
  nesRegister s = nesRegister s' ->
  press_view s = press_view s' ->
  input_view s = input_view s' ->
  release_state s = release_state s'.
Proof. intros H1 H2 H3. rewrite (machine_ext s s' H1 H2 H3). reflexivity. Qed.

Lemma loop_cycle (kb : KeyboardH) (s : machine) :
  loop kb s = (tt, cycle_state kb s, cycle_events kb s).
Proof.
  rewrite loop_run.
  pose proof (row_stage_views kb ROW_AH readAHrow 8 s s s []
                readAHrow_input eq_refl eq_refl) as H1.
  destruct (row_stage kb ROW_AH readAHrow s) as [s1 t1].
  cbn [fst snd app] in H1. destruct H1 as (Hi1 & Hp1 & Hr1 & Ht1).
  pose proof (row_stage_views kb ROW_IN readINrow 6 s1 (bump 8 s) s _
                readINrow_input Hi1 Hp1) as H2.
  destruct (row_stage kb ROW_IN readINrow s1) as [s2 t2].
  cbn [fst snd] in H2. destruct H2 as (Hi2 & Hp2 & Hr2 & Ht2).
  pose proof (row_stage_views kb ROW_CMD readCommandRow 7 s2 (bump 14 s) s _
                readCommandRow_input Hi2 Hp2) as H3.
  destruct (row_stage kb ROW_CMD readCommandRow s2) as [s3 t3].
  cbn [fst snd] in H3. destruct H3 as (Hi3 & Hp3 & Hr3 & Ht3).
  fold (regAH s) in *. fold (regIN s) in *. fold (regCommand s) in *.
  rewrite <- app_assoc, <- cycle_keys_eq in Hp3.
  unfold cycle_state, cycle_events. f_equal; [f_equal|].
  - apply release_state_ext.
    + rewrite press_state_register. exact Hr3.
    + rewrite Hp3. apply press_state_view. reflexivity.
    + rewrite press_state_input. exact Hi3.
  - rewrite Ht1, Ht2, Ht3, <- !app_assoc.
    rewrite (release_events_view _ _ Hp3). reflexivity.
Qed.

(* ===================================================================== *)
(** ** Keyboard calls and final state of a cycle                          *)
(* ===================================================================== *)

Lemma final_triple {A} (a : A) (s : machine) (t : list event) :
  final (a, s, t) = s.
Proof. reflexivity. Qed.

Lemma events_triple {A} (a : A) (s : machine) (t : list event) :
  events (a, s, t) = t.
Proof. reflexivity. Qed.

Lemma loop_final (kb : KeyboardH) (s : machine) :
  final (loop kb s) = cycle_state kb s.
Proof. rewrite loop_cycle. apply final_triple. Qed.

Lemma loop_events (kb : KeyboardH) (s : machine) :
  events (loop kb s) = cycle_events kb s.
Proof. rewrite loop_cycle. apply events_triple. Qed.

Lemma release_state_input (s : machine) :
  input_view (release_state s) = input_view s.
Proof. reflexivity. Qed.

Lemma release_state_pressed (s : machine) :
  isButtonPressed (release_state s) = false.
Proof. reflexivity. Qed.

Lemma release_state_last (s : machine) :
  lastPressedKey (release_state s) =
  if isButtonPressed s then lastPressedKey s else 0.
Proof. reflexivity. Qed.

Lemma with_register_input (r : Z) (s : machine) :
  input_view (with_register r s) = input_view s.
Proof. reflexivity. Qed.

Lemma keyboard_calls_app (t1 t2 : list event) :
  keyboard_calls (t1 ++ t2) = keyboard_calls t1 ++ keyboard_calls t2.
Proof. apply filter_app. Qed.

Lemma pressed_keys_app (t1 t2 : list event) :
  pressed_keys (t1 ++ t2) = pressed_keys t1 ++ pressed_keys t2.
Proof. apply flat_map_app. Qed.

Lemma presses_app (k1 k2 : list Z) :
  presses (k1 ++ k2) = presses k1 ++ presses k2.
Proof. apply map_app. Qed.

Lemma keyboard_calls_presses (keys : list Z) :
  keyboard_calls (presses keys) = presses keys.
Proof.
  induction keys as [|k r IH]; [reflexivity|].
  cbn. unfold keyboard_calls, presses in IH. rewrite IH. reflexivity.
Qed.

Lemma pressed_keys_presses (keys : list Z) :
  pressed_keys (presses keys) = map to_char keys.
Proof.
  induction keys as [|k r IH]; [reflexivity|].
  cbn. unfold pressed_keys, presses in IH. rewrite IH. reflexivity.
Qed.

Lemma keyboard_calls_reads (s : machine) :
  keyboard_calls (events (readAHrow s)) = [] /\
  keyboard_calls (events (readINrow s)) = [] /\
  keyboard_calls (events (readCommandRow s)) = [].
Proof.
  rewrite readAHrow_run, readINrow_run, readCommandRow_run.
  repeat split; reflexivity.
Qed.

Lemma pressed_keys_reads (s : machine) :
  pressed_keys (events (readAHrow s)) = [] /\
  pressed_keys (events (readINrow s)) = [] /\
  pressed_keys (events (readCommandRow s)) = [].
Proof.
  rewrite readAHrow_run, readINrow_run, readCommandRow_run.
  repeat split; reflexivity.
Qed.

Lemma pressed_keys_release (s : machine) :
  pressed_keys (release_events s) = [].
Proof.
  unfold release_events.
  destruct (isButtonPressed s); [reflexivity|].
  destruct (lastPressedKey s =? 0); reflexivity.
Qed.

Lemma cycle_keyboard_calls (kb : KeyboardH) (s : machine) :
  keyboard_calls (events (loop kb s)) =
  presses (cycle_keys kb s)
    ++ keyboard_calls (release_events (press_state (cycle_keys kb s) s)).
Proof.
  rewrite loop_events. unfold cycle_events.
  rewrite !keyboard_calls_app, !keyboard_calls_presses.
  rewrite (proj1 (keyboard_calls_reads s)).
  rewrite (proj1 (proj2 (keyboard_calls_reads (bump 8 s)))).
  rewrite (proj2 (proj2 (keyboard_calls_reads (bump 14 s)))).
  rewrite !app_nil_l, cycle_keys_eq, !presses_app, <- !app_assoc.
  reflexivity.
Qed.

Lemma cycle_pressed_keys (kb : KeyboardH) (s : machine) :
  pressed_keys (events (loop kb s)) = map (key_char kb) (snapshot s).
Proof.
  rewrite loop_events. unfold cycle_events.
  rewrite !pressed_keys_app, !pressed_keys_presses, pressed_keys_release.
  rewrite (proj1 (pressed_keys_reads s)).
  rewrite (proj1 (proj2 (pressed_keys_reads (bump 8 s)))).
  rewrite (proj2 (proj2 (pressed_keys_reads (bump 14 s)))).
  rewrite !app_nil_l, app_nil_r.
  unfold row_keys. rewrite <- !map_app, <- snapshot_eq, map_map.
  reflexivity.
Qed.

(** With some key pressed the cycle ends in the bounce delay. *)
Lemma cycle_calls_pressed (kb : KeyboardH) (s : machine) :
  snapshot s <> [] ->
  keyboard_calls (events (loop kb s)) = presses (cycle_keys kb s).
Proof.
  intros Hne. rewrite cycle_keyboard_calls.
  unfold release_events. rewrite press_state_pressed.
  unfold cycle_keys. destruct (snapshot s) as [|b r]; [congruence|].
  cbn [map]. rewrite app_nil_r. reflexivity.
Qed.

(** With no key pressed the cycle releases once, if a key is on record. *)
Lemma cycle_calls_idle (kb : KeyboardH) (s : machine) :
  snapshot s = [] ->
  keyboard_calls (events (loop kb s)) = keyboard_calls (release_events s).
Proof.
  intros He. rewrite cycle_keyboard_calls.
  unfold cycle_keys. rewrite He. reflexivity.
Qed.

Lemma cycle_input (kb : KeyboardH) (s : machine) :
  input_view (final (loop kb s)) = input_view (bump 21 s).
Proof.
  rewrite loop_final. unfold cycle_state.
  rewrite release_state_input, press_state_input. apply with_register_input.
Qed.

Lemma cycle_not_pressed (kb : KeyboardH) (s : machine) :
  isButtonPressed (final (loop kb s)) = false.
Proof. rewrite loop_final. apply release_state_pressed. Qed.

Lemma cycle_last_key (kb : KeyboardH) (s : machine) :
  lastPressedKey (final (loop kb s)) =
  match snapshot s with
  | [] => if isButtonPressed s then lastPressedKey s else 0
  | b :: r => last (map (key_char kb) (b :: r)) 0
  end.
Proof.
  rewrite loop_final. unfold cycle_state.
  rewrite release_state_last, press_state_pressed, press_state_last.
  unfold cycle_keys. destruct (snapshot s) as [|b r]; [reflexivity|].
  rewrite map_map. apply last_nonempty.
Qed.

Lemma snapshot_input (s s' : machine) :
  input_view s = input_view s' -> snapshot s = snapshot s'.
Proof.
  intros H. rewrite !snapshot_eq. unfold regAH, regIN, regCommand.
  assert (H8 : input_view (bump 8 s) = input_view (bump 8 s')).
  { unfold input_view in *. cbn. injection H as -> ->. reflexivity. }
  assert (H14 : input_view (bump 14 s) = input_view (bump 14 s')).
  { unfold input_view in *. cbn. injection H as -> ->. reflexivity. }
  rewrite (proj1 (proj2 readAHrow_input s s' H)).
  rewrite (proj1 (proj2 readINrow_input _ _ H8)).
  rewrite (proj1 (proj2 readCommandRow_input _ _ H14)).
  reflexivity.
Qed.

(** The next cycle reads the 21 samples that follow. *)
Lemma next_snapshot (kb : KeyboardH) (s : machine) :
  snapshot (final (loop kb s)) = snapshot (bump 21 s).
Proof. apply snapshot_input, cycle_input. Qed.

Lemma key_char_not_nul (kb : KeyboardH) (b : button) :
  modifiers_not_nul kb -> key_char kb b <> 0.
Proof.
  intros (Hc & Hs & Ha). unfold key_char.
  destruct b; cbn [spec_keycode]; try assumption; discriminate.
Qed.

Lemma last_key_not_nul (kb : KeyboardH) (b : button) (r : list button) :
  modifiers_not_nul kb -> last (map (key_char kb) (b :: r)) 0 <> 0.
Proof.
  intros Hnz. revert b; induction r as [|b' r IH]; intros b.
  - apply key_char_not_nul, Hnz.
  - apply (IH b').
Qed.

(* ===================================================================== *)
(** ** Runs of several cycles                                             *)
(* ===================================================================== *)

Lemma events_bind {A B} (m : M A) (k : A -> M B) (s : machine) :
  events (bind m k s) =
  events (m s) ++ events (k (result (m s)) (final (m s))).
Proof.
  unfold bind. destruct (m s) as [[a s1] t1]. cbn [result final events fst snd].
  destruct (k a s1) as [[b s2] t2]. reflexivity.
Qed.

Lemma final_bind {A B} (m : M A) (k : A -> M B) (s : machine) :
  final (bind m k s) = final (k (result (m s)) (final (m s))).
Proof.
  unfold bind. destruct (m s) as [[a s1] t1]. cbn [result final events fst snd].
  destruct (k a s1) as [[b s2] t2]. reflexivity.
Qed.

Lemma cycles_events_S (kb : KeyboardH) (n : nat) (s : machine) :
  events (cycles kb (S n) s) =
  events (loop kb s) ++ events (cycles kb n (final (loop kb s))).
Proof. exact (events_bind (loop kb) (fun _ => cycles kb n) s). Qed.

Lemma cycles_final_S (kb : KeyboardH) (n : nat) (s : machine) :
  final (cycles kb (S n) s) = final (cycles kb n (final (loop kb s))).
Proof. exact (final_bind (loop kb) (fun _ => cycles kb n) s). Qed.

Lemma cycles_0 (kb : KeyboardH) (s : machine) :
  cycles kb 0 s = (tt, s, []).
Proof. reflexivity. Qed.

Lemma cycles_final_snoc (kb : KeyboardH) (n : nat) (s : machine) :
  final (cycles kb (S n) s) = final (loop kb (final (cycles kb n s))).
Proof.
  revert s; induction n as [|n IH]; intros s.
  - rewrite cycles_final_S, !cycles_0, !final_triple. reflexivity.
  - rewrite cycles_final_S, IH, <- cycles_final_S. reflexivity.
Qed.

Lemma cycles_events_snoc (kb : KeyboardH) (n : nat) (s : machine) :
  events (cycles kb (S n) s) =
  events (cycles kb n s) ++ events (loop kb (final (cycles kb n s))).
Proof.
  revert s; induction n as [|n IH]; intros s.
  - rewrite cycles_events_S, !cycles_0, events_triple, final_triple.
    rewrite app_nil_r. reflexivity.
  - rewrite cycles_events_S, IH, app_assoc, <- cycles_events_S.
    rewrite <- cycles_final_S. reflexivity.
Qed.

(** A single button held over [n] cycles: one press per cycle. *)
Lemma held_cycles (kb : KeyboardH) (b : button) (n : nat) (s : machine) :
  (forall k, (k < n)%nat -> snapshot (final (cycles kb k s)) = [b]) ->
  keyboard_calls (events (cycles kb n s)) =
    repeat (KeyboardPress (key_char kb b)) n /\
  ((1 <= n)%nat ->
   lastPressedKey (final (cycles kb n s)) = key_char kb b /\
   isButtonPressed (final (cycles kb n s)) = false).
Proof.
  induction n as [|n IH]; intros Hheld.
  - split; [reflexivity | lia].
  - destruct IH as [IHcalls _]; [intros k Hk; apply Hheld; lia|].
    assert (Hn : snapshot (final (cycles kb n s)) = [b]) by (apply Hheld; lia).
    split.
    + rewrite cycles_events_snoc, keyboard_calls_app, IHcalls.
      rewrite cycle_calls_pressed by (rewrite Hn; discriminate).
      unfold cycle_keys. rewrite Hn.
      change (presses (map (spec_keycode kb) [b]))
        with [KeyboardPress (key_char kb b)].
      rewrite <- repeat_cons. reflexivity.
    + intros _. rewrite cycles_final_snoc. split.
      * rewrite cycle_last_key, Hn. reflexivity.
      * apply cycle_not_pressed.
Qed.

(** With no key on record, cycles that read nothing call nothing. *)
Lemma idle_cycles (kb : KeyboardH) (n : nat) (s : machine) :
  isButtonPressed s = false ->
  lastPressedKey s = 0 ->
  (forall k, (k < n)%nat -> snapshot (final (cycles kb k s)) = []) ->
  keyboard_calls (events (cycles kb n s)) = [] /\
  lastPressedKey (final (cycles kb n s)) = 0 /\
  isButtonPressed (final (cycles kb n s)) = false.
Proof.
  intros Hp Hl. induction n as [|n IH]; intros Hidle.
  - repeat split; assumption.
  - destruct IH as (IHc & IHl & IHp); [intros k Hk; apply Hidle; lia|].
    assert (Hn : snapshot (final (cycles kb n s)) = []) by (apply Hidle; lia).
    rewrite cycles_events_snoc, cycles_final_snoc, keyboard_calls_app, IHc.
    rewrite cycle_calls_idle by exact Hn.
    rewrite cycle_last_key, Hn, IHp.
    unfold release_events. rewrite IHp, IHl.
    repeat split. apply cycle_not_pressed.
Qed.

Lemma keyboard_calls_release (s : machine) :
  keyboard_calls (release_events s) =
  if isButtonPressed s then []
  else if lastPressedKey s =? 0 then [] else [KeyboardReleaseAll].
Proof.
  unfold release_events.
  destruct (isButtonPressed s); [reflexivity|].
  destruct (lastPressedKey s =? 0); reflexivity.
Qed.

Lemma in_keyboard_calls (e : event) (t : list event) :
  In e t -> is_keyboard e = true -> In e (keyboard_calls t).
Proof. intros H1 H2. apply filter_In. split; assumption. Qed.

Lemma presses_no_release (keys : list Z) :
  ~ In KeyboardReleaseAll (presses keys).
Proof.
  induction keys as [|k r IH]; intros H; [exact H|].
  destruct H as [H|H]; [discriminate H | exact (IH H)].
Qed.

Lemma cycle_keys_nil (kb : KeyboardH) (s : machine) :
  cycle_keys kb s = [] -> snapshot s = [].
Proof. unfold cycle_keys. apply map_eq_nil. Qed.

(** A cycle that releases read no button and started with none pressed. *)
Lemma release_means_idle (kb : KeyboardH) (s : machine) :
  In KeyboardReleaseAll (events (loop kb s)) ->
  snapshot s = [] /\ isButtonPressed s = false /\ lastPressedKey s <> 0.
Proof.
  intros Hin.
  pose proof (in_keyboard_calls _ _ Hin eq_refl) as Hk. clear Hin.
  rewrite cycle_keyboard_calls in Hk. apply in_app_or in Hk.
  destruct Hk as [Hk|Hk]; [destruct (presses_no_release _ Hk)|].
  rewrite keyboard_calls_release, press_state_pressed in Hk.
  pose proof (cycle_keys_nil kb s) as Hnil.
  destruct (cycle_keys kb s) as [|k r]; [|destruct Hk].
  split; [apply Hnil; reflexivity|]. clear Hnil.
  change (press_state [] s) with s in Hk.
  destruct (isButtonPressed s); [destruct Hk|].
  destruct (Z.eqb_spec (lastPressedKey s) 0) as [He|Hne]; [destruct Hk|].
  split; [reflexivity | exact Hne].
Qed.

(* ===================================================================== *)
(** ** The row-select lines along a trace                                 *)
(* ===================================================================== *)

Lemma safe_run_head (st : select_lines) (t : list event) :
  safe_run st t = selects st && safe_run st t.
Proof. destruct t; cbn [safe_run]; destruct (selects st); reflexivity. Qed.

Lemma safe_run_app (st : select_lines) (t1 t2 : list event) :
  safe_run st (t1 ++ t2) =
  safe_run st t1 && safe_run (fold_left drive t1 st) t2.
Proof.
  revert st; induction t1 as [|e r IH]; intros st.
  - cbn [app fold_left safe_run]. rewrite andb_true_r. apply safe_run_head.
  - cbn [app fold_left safe_run]. rewrite IH, andb_assoc. reflexivity.
Qed.

Lemma safe_run_firstn (st : select_lines) (t : list event) (k : nat) :
  safe_run st t = true ->
  selects (fold_left drive (firstn k t) st) = true.
Proof.
  revert st k; induction t as [|e r IH]; intros st k H.
  - rewrite firstn_nil. cbn in H |- *. rewrite andb_true_r in H. exact H.
  - cbn [safe_run] in H. apply andb_true_iff in H. destruct H as [H1 H2].
    destruct k as [|k]; [exact H1|].
    cbn [firstn fold_left]. apply IH, H2.
Qed.

Lemma selects_not_low (st : select_lines) :
  selects st = true -> selected st <> None /\ both_low st = false.
Proof.
  destruct st as [[d1 o1] [d2 o2]].
  destruct d1, d2, o1, o2; cbn; intros H;
    (discriminate H || (split; [discriminate | reflexivity])).
Qed.

Lemma presses_lines (st : select_lines) (keys : list Z) :
  fold_left drive (presses keys) st = st /\
  safe_run st (presses keys) = selects st.
Proof.
  induction keys as [|k r IH].
  - split; [reflexivity | apply andb_true_r].
  - destruct IH as [IH1 IH2]. split.
    + exact IH1.
    + cbn [presses map safe_run drive]. unfold presses in IH2.
      rewrite IH2. destruct (selects st); reflexivity.
Qed.

Lemma release_lines (st : select_lines) (s : machine) :
  fold_left drive (release_events s) st = st /\
  safe_run st (release_events s) = selects st.
Proof.
  unfold release_events.
  destruct (isButtonPressed s); [|destruct (lastPressedKey s =? 0)];
    (split; [reflexivity | cbn; destruct (selects st); reflexivity]).
Qed.

Lemma readAHrow_lines (s : machine) (st : select_lines) :
  st = lines_of ROW_AH \/ st = lines_of ROW_CMD ->
  fold_left drive (events (readAHrow s)) st = lines_of ROW_AH /\
  safe_run st (events (readAHrow s)) = true.
Proof.
  rewrite readAHrow_run, events_triple.
  intros [-> | ->]; split; reflexivity.
Qed.

Lemma readINrow_lines (s : machine) :
  fold_left drive (events (readINrow s)) (lines_of ROW_AH) =
    lines_of ROW_IN /\
  safe_run (lines_of ROW_AH) (events (readINrow s)) = true.
Proof. rewrite readINrow_run, events_triple. split; reflexivity. Qed.

Lemma readCommandRow_lines (s : machine) :
  fold_left drive (events (readCommandRow s)) (lines_of ROW_IN) =
    lines_of ROW_CMD /\
  safe_run (lines_of ROW_IN) (events (readCommandRow s)) = true.
Proof. rewrite readCommandRow_run, events_triple. split; reflexivity. Qed.

Lemma cycle_lines (kb : KeyboardH) (s : machine) (st : select_lines) :
  st = lines_of ROW_AH \/ st = lines_of ROW_CMD ->
  fold_left drive (events (loop kb s)) st = lines_of ROW_CMD /\
  safe_run st (events (loop kb s)) = true.
Proof.
  intros Hst. rewrite loop_events. unfold cycle_events.
  destruct (readAHrow_lines s st Hst) as [A1 A2].
  destruct (readINrow_lines (bump 8 s)) as [I1 I2].
  destruct (readCommandRow_lines (bump 14 s)) as [C1 C2].
  rewrite !safe_run_app, !fold_left_app.
  repeat rewrite (proj1 (presses_lines _ _)).
  repeat rewrite (proj1 (release_lines _ _)).
  rewrite !A1, !I1, !C1, A2, I2, C2.
  repeat rewrite (proj2 (presses_lines _ _)).
  repeat rewrite (proj2 (release_lines _ _)).
  split; reflexivity.
Qed.

Lemma cycles_lines (kb : KeyboardH) (n : nat) (s : machine)
    (st : select_lines) :
  st = lines_of ROW_AH \/ st = lines_of ROW_CMD ->
  safe_run st (events (cycles kb n s)) = true.
Proof.
  revert s st; induction n as [|n IH]; intros s st Hst.
  - rewrite cycles_0, events_triple. destruct Hst as [-> | ->]; reflexivity.
  - rewrite cycles_events_S, safe_run_app.
    destruct (cycle_lines kb s st Hst) as [L1 L2].
    rewrite L1, L2. apply IH. right; reflexivity.
Qed.

Lemma setup_run (s : machine) :
  setup s =
  (tt, s,
   [PinMode nesData INPUT; PinMode nesClock OUTPUT; PinMode nesLatch OUTPUT;
    PinMode nesAH OUTPUT; PinMode nesIN OUTPUT;
    DigitalWrite nesClock LOW; DigitalWrite nesLatch LOW; KeyboardBegin]).
Proof. reflexivity. Qed.

(** A cycle starts by selecting the A-H row. *)
Lemma cycle_starts_with_select (kb : KeyboardH) (s : machine) :
  exists rest, events (loop kb s) = select_row LOW HIGH ++ rest.
Proof.
  rewrite loop_events. unfold cycle_events.
  rewrite readAHrow_run, events_triple, <- !app_assoc.
  eexists. reflexivity.
Qed.

(** [setup] and the first row selection bring the select lines to the
    A-H row whatever the port powered up with; from there on they always
    choose a row. *)
Lemma sketch_lines (kb : KeyboardH) (n : nat) (s : machine)
    (p0 : level * level) :
  exists rest,
    events (sketch kb (S n) s) =
      (events (setup s) ++ select_row LOW HIGH) ++ rest /\
    length (events (setup s) ++ select_row LOW HIGH) = 10%nat /\
    lines_after p0 (events (setup s) ++ select_row LOW HIGH) =
      lines_of ROW_AH /\
    safe_run (lines_of ROW_AH) rest = true.
Proof.
  destruct (cycle_starts_with_select kb s) as [rest Hrest].
  exists (rest ++ events (cycles kb n (final (loop kb s)))).
  assert (Hsafe : safe_run (lines_of ROW_AH)
                    (events (loop kb s)
                       ++ events (cycles kb n (final (loop kb s)))) = true).
  { rewrite safe_run_app.
    destruct (cycle_lines kb s (lines_of ROW_AH)) as [L1 L2];
      [left; reflexivity|].
    rewrite L1, L2. apply cycles_lines. right; reflexivity. }
  rewrite Hrest, <- app_assoc, safe_run_app in Hsafe.
  apply andb_true_iff in Hsafe. destruct Hsafe as [_ Hsafe].
  split; [|split; [|split]].
  - unfold sketch.
    rewrite (events_bind setup (fun _ => cycles kb (S n)) s), setup_run.
    rewrite events_triple, final_triple, cycles_events_S, Hrest.
    rewrite <- !app_assoc. reflexivity.
  - rewrite setup_run, events_triple. reflexivity.
  - rewrite setup_run, events_triple.
    destruct p0 as [[|] [|]]; reflexivity.
  - exact Hsafe.
Qed.

(** *** Counting over the keyboard calls only *)

Lemma pressed_keys_keyboard (t : list event) :
  pressed_keys (keyboard_calls t) = pressed_keys t.
Proof.
  unfold pressed_keys, keyboard_calls.
  induction t as [|e r IH]; [reflexivity|].
  destruct e; simpl; rewrite ?IH; reflexivity.
Qed.

Lemma count_releases_keyboard (t : list event) :
  count_releases (keyboard_calls t) = count_releases t.
Proof.
  unfold count_releases, keyboard_calls.
  induction t as [|e r IH]; [reflexivity|].
  destruct e; simpl; rewrite ?IH; reflexivity.
Qed.

Lemma pressed_keys_repeat (k : Z) (n : nat) :
  pressed_keys (repeat (KeyboardPress k) n) = repeat k n.
Proof.
  induction n as [|n IH]; [reflexivity|].
  cbn [repeat]. change (pressed_keys (KeyboardPress k :: ?r))
    with (k :: pressed_keys r). rewrite IH. reflexivity.
Qed.

Lemma count_releases_repeat (k : Z) (n : nat) :
  count_releases (repeat (KeyboardPress k) n) = 0%nat.
Proof. induction n as [|n IH]; [reflexivity | exact IH]. Qed.

(** *** Keys the host holds *)

Lemma held_after_keyboard (t : list event) (held : list Z) :
  held_after (keyboard_calls t) held = held_after t held.
Proof.
  unfold keyboard_calls. revert held.
  induction t as [|e r IH]; intros held; [reflexivity|].
  destruct e; simpl; rewrite ?IH; reflexivity.
Qed.

Lemma held_after_presses (k : Z) (r : list Z) (held : list Z) :
  held_after (presses (k :: r)) held <> [].
Proof.
  revert k held; induction r as [|k' r IH]; intros k held.
  - discriminate.
  - exact (IH k' (to_char k :: held)).
Qed.

Lemma held_after_release (t : list event) (held : list Z) :
  held_after (t ++ [KeyboardReleaseAll]) held = [].
Proof.
  revert held; induction t as [|e r IH]; intros held; [reflexivity|].
  destruct e; simpl; apply IH.
Qed.

Lemma keyboard_call_in_trace (e : event) (t : list event) :
  In e (keyboard_calls t) -> In e t.
Proof. intros H. apply filter_In in H. exact (proj1 H). Qed.

(** *** Facts used on concrete key tables and register values *)

Lemma modifiers_not_nul_arduino : modifiers_not_nul arduino_keyboard.
Proof. repeat split; vm_compute; discriminate. Defined.

Lemma testbit_above_low_bits (a m p : Z) :
  0 <= m -> Z.log2 m < p -> Z.testbit (Z.lor a m) p = Z.testbit a p.
Proof.
  intros Hm Hp. rewrite Z.lor_spec, (Z.bits_above_log2 m p) by assumption.
  apply orb_false_r.
Qed.

(* ===================================================================== *)
(** ** The scenarios of the specification                                 *)
(* ===================================================================== *)

(** Scenario A: A-H bits 0b11111110 decode to H. *)
Example scenario_A : decode ROW_AH 254 = [BtnH].
Proof. reflexivity. Qed.

(** Scenario B: A-H bits 0b11111111 decode to no button. *)
Example scenario_B : decode ROW_AH 255 = [].
Proof. reflexivity. Qed.

(** Scenario C: command bits 0b11111101 decode to RON, pressed as 'z'. *)
Example scenario_C :
  decode ROW_CMD 253 = [BtnRON] /\
  events (loop_Command arduino_keyboard (holding 253 tap_H)) =
    [KeyboardPress (chr "z")].
Proof. split; reflexivity. Qed.

(** Scenario D: H down in the first cycle and up in the second gives a
    press of 'h' and then a release of all keys. *)
Example scenario_D :
  regAH tap_H = 254 /\
  regAH (final (loop arduino_keyboard tap_H)) = 255 /\
  keyboard_calls (events (cycles arduino_keyboard 2 tap_H)) =
    [KeyboardPress (chr "h"); KeyboardReleaseAll].
Proof. repeat split; vm_compute; reflexivity. Qed.

(* ===================================================================== *)
(** ** Further facts about the row reads and the cycle                    *)
(* ===================================================================== *)

Lemma result_triple {A} (a : A) (s : machine) (t : list event) :
  result (a, s, t) = a.
Proof. reflexivity. Qed.

Lemma testbit_beyond (a : Z) (n m : Z) :
  0 <= a < 2 ^ n -> 0 <= n <= m -> Z.testbit a m = false.
Proof.
  intros Ha Hn. rewrite <- (Z.mod_small a (2 ^ n)) by exact Ha.
  apply Z.mod_pow2_bits_high. exact Hn.
Qed.

Lemma pack_position (ls : list level) (p : Z) :
  0 <= p ->
  Z.testbit (pack ls) p = level_bit (nth (Z.to_nat p) ls LOW).
Proof.
  intros Hp. rewrite <- (Z2Nat.id p) at 1 by exact Hp. apply pack_testbit.
Qed.

Lemma level_bit_low (v : level) : level_bit v = false <-> v = LOW.
Proof. destruct v; cbn; intuition congruence. Qed.

Lemma filter_presses (f : event -> bool) (keys : list Z) :
  (forall k, f (KeyboardPress k) = false) ->
  filter f (presses keys) = [].
Proof.
  intros Hf. induction keys as [|k r IH]; [reflexivity|].
  cbn [presses map filter]. rewrite Hf. exact IH.
Qed.

(** A filter that drops keyboard calls and delays keeps, of a cycle, what
    it keeps of the three row reads. *)
Lemma filter_cycle (f : event -> bool) (kb : KeyboardH) (s : machine) :
  (forall k, f (KeyboardPress k) = false) ->
  f KeyboardReleaseAll = false ->
  (forall ms, f (Delay ms) = false) ->
  filter f (events (loop kb s)) =
  filter f (events (readAHrow s))
    ++ filter f (events (readINrow (bump 8 s)))
    ++ filter f (events (readCommandRow (bump 14 s))).
Proof.
  intros Hp Hr Hd. rewrite loop_events. unfold cycle_events.
  rewrite !filter_app, !(filter_presses f) by exact Hp.
  assert (Hrel : forall s', filter f (release_events s') = []).
  { intros s'. unfold release_events.
    destruct (isButtonPressed s'); [cbn; rewrite Hd; reflexivity|].
    destruct (lastPressedKey s' =? 0); [reflexivity|].
    cbn. rewrite Hr. reflexivity. }
  rewrite Hrel, !app_nil_l, app_nil_r. reflexivity.
Qed.

Lemma cycle_end_pressed (kb : KeyboardH) (s : machine) :
  isButtonPressed (press_state (cycle_keys kb s) s) =
  match snapshot s with [] => isButtonPressed s | _ :: _ => true end.
Proof.
  rewrite press_state_pressed. unfold cycle_keys.
  destruct (snapshot s); reflexivity.
Qed.

Lemma cycle_delays (kb : KeyboardH) (s : machine) :
  delays (events (loop kb s)) =
  match snapshot s with
  | [] => if isButtonPressed s then [Delay 80] else []
  | _ :: _ => [Delay 80]
  end.
Proof.
  unfold delays. rewrite loop_events. unfold cycle_events.
  rewrite !filter_app, !(filter_presses is_delay) by reflexivity.
  rewrite readAHrow_run, readINrow_run, readCommandRow_run, !events_triple.
  assert (Hrel : forall s', filter is_delay (release_events s') =
                            if isButtonPressed s' then [Delay 80] else []).
  { intros s'. unfold release_events.
    destruct (isButtonPressed s'); [reflexivity|].
    destruct (lastPressedKey s' =? 0); reflexivity. }
  rewrite Hrel, cycle_end_pressed.
  destruct (snapshot s); reflexivity.
Qed.

(** *** Releases and held keys over several cycles *)

Lemma count_releases_app (t1 t2 : list event) :
  count_releases (t1 ++ t2) = (count_releases t1 + count_releases t2)%nat.
Proof. unfold count_releases. rewrite filter_app. apply length_app. Qed.

Lemma count_releases_presses (keys : list Z) :
  count_releases (presses keys) = 0%nat.
Proof. induction keys as [|k r IH]; [reflexivity | exact IH]. Qed.

Lemma held_after_app (t1 t2 : list event) (held : list Z) :
  held_after (t1 ++ t2) held = held_after t2 (held_after t1 held).
Proof.
  revert held; induction t1 as [|e r IH]; intros held; [reflexivity|].
  destruct e; simpl; apply IH.
Qed.

Lemma held_without_release (t : list event) (held : list Z) :
  count_releases t = 0%nat ->
  held_after t held = rev (pressed_keys t) ++ held.
Proof.
  unfold count_releases, pressed_keys.
  revert held; induction t as [|e r IH]; intros held H; [reflexivity|].
  destruct e; simpl in H |- *; try (apply IH; exact H).
  - rewrite IH by exact H. rewrite <- app_assoc. reflexivity.
  - discriminate H.
Qed.

Lemma cycle_no_release (kb : KeyboardH) (s : machine) :
  snapshot s <> [] -> count_releases (events (loop kb s)) = 0%nat.
Proof.
  intros Hne. rewrite <- count_releases_keyboard.
  rewrite cycle_calls_pressed by exact Hne. apply count_releases_presses.
Qed.

(** One cycle keeps the record in step with the keys the host holds. *)
Lemma cycle_record (kb : KeyboardH) (s : machine) (held : list Z) :
  modifiers_not_nul kb ->
  isButtonPressed s = false ->
  (lastPressedKey s = 0 <-> held = []) ->
  (lastPressedKey (final (loop kb s)) = 0 <->
   held_after (events (loop kb s)) held = []).
Proof.
  intros Hkb Hp Hinv.
  rewrite <- held_after_keyboard, cycle_last_key.
  destruct (snapshot s) as [|b r] eqn:Hs.
  - rewrite cycle_calls_idle, keyboard_calls_release, Hp by exact Hs.
    destruct (Z.eqb_spec (lastPressedKey s) 0) as [He|Hne].
    + cbn [held_after]. split; [intros _; apply Hinv, He | reflexivity].
    + cbn [held_after]. split; reflexivity.
  - rewrite cycle_calls_pressed by (rewrite Hs; discriminate).
    pose proof (cycle_keys_nil kb s) as Hnil.
    destruct (cycle_keys kb s) as [|k ks];
      [rewrite Hnil in Hs by reflexivity; discriminate Hs|].
    split; intros H.
    + destruct (last_key_not_nul kb b r Hkb H).
    + destruct (held_after_presses k ks held H).
Qed.

Lemma cycles_record (kb : KeyboardH) (n : nat) (s : machine)
    (held : list Z) :
  modifiers_not_nul kb ->
  isButtonPressed s = false ->
  (lastPressedKey s = 0 <-> held = []) ->
  isButtonPressed (final (cycles kb n s)) = false /\
  (lastPressedKey (final (cycles kb n s)) = 0 <->
   held_after (events (cycles kb n s)) held = []).
Proof.
  intros Hkb. revert s held; induction n as [|n IH]; intros s held Hp Hinv.
  - rewrite cycles_0, final_triple, events_triple. split; assumption.
  - rewrite cycles_final_S, cycles_events_S, held_after_app.
    apply IH; [apply cycle_not_pressed|].
    apply cycle_record; assumption.
Qed.

Lemma sketch_events (kb : KeyboardH) (n : nat) (s : machine) :
  events (sketch kb n s) = events (setup s) ++ events (cycles kb n s).
Proof.
  unfold sketch. rewrite (events_bind setup (fun _ => cycles kb n) s).
  rewrite setup_run, final_triple. reflexivity.
Qed.

Lemma sketch_final (kb : KeyboardH) (n : nat) (s : machine) :
  final (sketch kb n s) = final (cycles kb n s).
Proof.
  unfold sketch. rewrite (final_bind setup (fun _ => cycles kb n) s).
  rewrite setup_run, final_triple. reflexivity.
Qed.

Lemma cycle_no_begin (kb : KeyboardH) (s : machine) :
  filter is_begin (events (loop kb s)) = [].
Proof.
  rewrite (filter_cycle is_begin) by reflexivity.
  rewrite readAHrow_run, readINrow_run, readCommandRow_run, !events_triple.
  reflexivity.
Qed.

Lemma cycles_no_begin (kb : KeyboardH) (n : nat) (s : machine) :
  filter is_begin (events (cycles kb n s)) = [].
Proof.
  revert s; induction n as [|n IH]; intros s; [reflexivity|].
  rewrite cycles_events_S, filter_app, cycle_no_begin, IH. reflexivity.
Qed.

(** *** Clock and latch at the reads; pins *)

Lemma reads_settled_app (st : line_state * line_state)
    (t1 t2 : list event) :
  reads_settled st (t1 ++ t2) =
  reads_settled st t1 && reads_settled (fold_left drive_clock_latch t1 st) t2.
Proof.
  revert st; induction t1 as [|e r IH]; intros st; [reflexivity|].
  cbn [app reads_settled fold_left]. rewrite IH, andb_assoc. reflexivity.
Qed.

Lemma reads_settled_at (st : line_state * line_state)
    (p q : list event) (pin : Z) (v : level) :
  reads_settled st (p ++ DigitalRead pin v :: q) = true ->
  both_idle (fold_left drive_clock_latch p st) = true.
Proof.
  rewrite reads_settled_app. intros H. apply andb_true_iff in H.
  destruct H as [_ H]. cbn [reads_settled] in H.
  apply andb_true_iff in H. exact (proj1 H).
Qed.

Lemma presses_clock_latch (st : line_state * line_state)
    (keys : list Z) :
  fold_left drive_clock_latch (presses keys) st = st /\
  reads_settled st (presses keys) = true.
Proof.
  induction keys as [|k r IH]; [split; reflexivity|].
  destruct IH as [IH1 IH2]. split; [exact IH1 | exact IH2].
Qed.

Lemma release_clock_latch (st : line_state * line_state)
    (s : machine) :
  fold_left drive_clock_latch (release_events s) st = st /\
  reads_settled st (release_events s) = true.
Proof.
  unfold release_events.
  destruct (isButtonPressed s); [|destruct (lastPressedKey s =? 0)];
    split; reflexivity.
Qed.

Lemma rows_clock_latch (s : machine) :
  (fold_left drive_clock_latch (events (readAHrow s)) idle_lines
     = idle_lines /\
   reads_settled idle_lines (events (readAHrow s)) = true) /\
  (fold_left drive_clock_latch (events (readINrow s)) idle_lines
     = idle_lines /\
   reads_settled idle_lines (events (readINrow s)) = true) /\
  (fold_left drive_clock_latch (events (readCommandRow s)) idle_lines
     = idle_lines /\
   reads_settled idle_lines (events (readCommandRow s)) = true).
Proof.
  rewrite readAHrow_run, readINrow_run, readCommandRow_run, !events_triple.
  repeat split; reflexivity.
Qed.

Lemma cycle_clock_latch (kb : KeyboardH) (s : machine) :
  fold_left drive_clock_latch (events (loop kb s)) idle_lines = idle_lines /\
  reads_settled idle_lines (events (loop kb s)) = true.
Proof.
  rewrite loop_events. unfold cycle_events.
  destruct (rows_clock_latch s) as ((A1 & A2) & _).
  destruct (rows_clock_latch (bump 8 s)) as (_ & (I1 & I2) & _).
  destruct (rows_clock_latch (bump 14 s)) as (_ & _ & (C1 & C2)).
  rewrite !reads_settled_app, !fold_left_app.
  repeat rewrite (proj1 (presses_clock_latch _ _)).
  repeat rewrite (proj1 (release_clock_latch _ _)).
  rewrite !A1, !I1, !C1, A2, I2, C2.
  repeat rewrite (proj2 (presses_clock_latch _ _)).
  repeat rewrite (proj2 (release_clock_latch _ _)).
  split; reflexivity.
Qed.

Lemma cycles_clock_latch (kb : KeyboardH) (n : nat) (s : machine) :
  reads_settled idle_lines (events (cycles kb n s)) = true.
Proof.
  revert s; induction n as [|n IH]; intros s.
  - reflexivity.
  - rewrite cycles_events_S, reads_settled_app.
    destruct (cycle_clock_latch kb s) as [L1 L2]. rewrite L1, L2. apply IH.
Qed.

Lemma cycle_pin_use (kb : KeyboardH) (s : machine) :
  forallb pin_use (events (loop kb s)) = true.
Proof.
  rewrite loop_events. unfold cycle_events.
  assert (Hp : forall keys, forallb pin_use (presses keys) = true).
  { induction keys as [|k r IH]; [reflexivity | exact IH]. }
  assert (Hr : forall s', forallb pin_use (release_events s') = true).
  { intros s'. unfold release_events.
    destruct (isButtonPressed s'); [|destruct (lastPressedKey s' =? 0)];
      reflexivity. }
  rewrite !forallb_app, !Hp, Hr.
  rewrite readAHrow_run, readINrow_run, readCommandRow_run, !events_triple.
  reflexivity.
Qed.

Lemma input_view_sampled (s s' : machine) :
  input_view s = input_view s' -> sampled s = sampled s'.
Proof. unfold input_view. intros H. injection H as _ H. exact H. Qed.

(* ===================================================================== *)
(** ** Row acquisition: bit order, unused positions, clocking            *)
(* ===================================================================== *)

(** C7: [readAHrow] returns an 8-bit value; the sample taken right after
    the latch pulse is bit 0, the sample taken after the [i]-th clock
    pulse is bit [i], up to bit 7, and bit [i] is 0 exactly when the
    [i]-th sample read [LOW]. *)
Theorem readAHrow_bit_order (s : machine) (i : nat) (Hi : (i < 8)%nat) :
  0 <= result (readAHrow s) < 256 /\
  events (readAHrow s) =
    select_row LOW HIGH ++ latch_pulse ++ [DigitalRead nesData (line s 0)]
      ++ clocked_reads (map (line s) (seq 1 7)) /\
  (Z.testbit (result (readAHrow s)) (Z.of_nat i) = false <-> line s i = LOW).
Proof.
  rewrite readAHrow_run. cbn [result events fst snd].
  split; [|split].
  - apply (pack_range (map (line s) (seq 0 8))).
  - reflexivity.
  - rewrite pack_testbit.
    do 8 (destruct i as [|i]; [cbn [nth map seq]; destruct (line s _); cbn; intuition congruence|]).
    lia.
Qed.

Lemma readAHrow_bit_order_witness :
  (3 < 8)%nat /\
  (Z.testbit (result (readAHrow (power_up (low_at [3%nat])))) 3 = false
   <-> line (power_up (low_at [3%nat])) 3 = LOW).
Proof.
  split; [lia|].
  apply (readAHrow_bit_order (power_up (low_at [3%nat])) 3). lia.
Defined.

(** C10: whatever the data line does, the value [readINrow] returns has
    bits 0 and 1 set and the value [readCommandRow] returns has bit 0
    set: the unused positions always read as not pressed. *)
Theorem unused_positions_read_high (s : machine) :
  Z.testbit (result (readINrow s)) 0 = true /\
  Z.testbit (result (readINrow s)) 1 = true /\
  Z.testbit (result (readCommandRow s)) 0 = true.
Proof.
  rewrite readINrow_run, readCommandRow_run. cbn [result fst].
  repeat split.
  - apply (pack_testbit (HIGH :: HIGH :: map (line s) (seq 0 6)) 0).
  - apply (pack_testbit (HIGH :: HIGH :: map (line s) (seq 0 6)) 1).
  - apply (pack_testbit (HIGH :: map (line s) (seq 0 7)) 0).
Qed.

(** C3, as stated, fails: a read of the I-N row samples the data line 6
    times and a read of the command row 7 times, not 8. *)
Lemma row_reads_not_uniform :
  count_reads (events (readINrow (power_up (low_at [])))) = 6%nat /\
  count_reads (events (readCommandRow (power_up (low_at [])))) = 7%nat /\
  ~ (forall s, count_reads (events (readINrow s)) = 8%nat).
Proof.
  split; [reflexivity|]. split; [reflexivity|].
  intros H. specialize (H (power_up (low_at []))). discriminate H.
Qed.

(** C3, amended: every row read drives the same output sequence after
    its two select writes, one latch pulse and then 7 clock pulses, so
    the positions without a button are clocked past; the data line is
    sampled only at the positions that carry a button: 8 reads for A-H,
    6 for I-N (none after the latch pulse nor after the first clock
    pulse) and 7 for the command row (none after the latch pulse). *)
Theorem row_clocking_uniform (s : machine) :
  writes (events (readAHrow s)) =
    select_row LOW HIGH ++ latch_pulse ++ concat (repeat clock_pulse 7) /\
  writes (events (readINrow s)) =
    select_row HIGH LOW ++ latch_pulse ++ concat (repeat clock_pulse 7) /\
  writes (events (readCommandRow s)) =
    select_row HIGH HIGH ++ latch_pulse ++ concat (repeat clock_pulse 7) /\
  events (readINrow s) =
    select_row HIGH LOW ++ latch_pulse ++ clock_pulse
      ++ clocked_reads (map (line s) (seq 0 6)) /\
  events (readCommandRow s) =
    select_row HIGH HIGH ++ latch_pulse
      ++ clocked_reads (map (line s) (seq 0 7)) /\
  count_reads (events (readAHrow s)) = 8%nat /\
  count_reads (events (readINrow s)) = 6%nat /\
  count_reads (events (readCommandRow s)) = 7%nat.
Proof.
  rewrite readAHrow_run, readINrow_run, readCommandRow_run.
  repeat split; reflexivity.
Qed.

(* ===================================================================== *)
(** ** Decoding and key codes                                             *)
(* ===================================================================== *)

(** C4: for every register value, the tests of the loop on the A-H row
    press exactly the keys of the buttons whose table position (0=H, 1=G,
    2=F, 3=E, 4=D, 5=C, 6=B, 7=A) holds 0; and what the loop presses for
    the I-N row does not depend on bits 0 and 1 of the register, nor for
    the command row on bit 0. *)
Theorem decode_by_table (kb : KeyboardH) (s : machine)
    (bits bitsI bitsI' bitsC bitsC' : Z)
    (HI : forall p, 2 <= p -> Z.testbit bitsI p = Z.testbit bitsI' p)
    (HC : forall p, 1 <= p -> Z.testbit bitsC p = Z.testbit bitsC' p) :
  events (loop_AH (holding bits s)) =
    presses (map (spec_keycode kb) (decode ROW_AH bits)) /\
  (forall b, In b (decode ROW_AH bits) <->
             exists p, spec_AH_position b = Some p /\
                       Z.testbit bits p = false) /\
  decode ROW_IN bitsI = decode ROW_IN bitsI' /\
  events (loop_IN (holding bitsI s)) = events (loop_IN (holding bitsI' s)) /\
  decode ROW_CMD bitsC = decode ROW_CMD bitsC' /\
  events (loop_Command kb (holding bitsC s)) =
    events (loop_Command kb (holding bitsC' s)).
Proof.
  assert (EI : decode ROW_IN bitsI = decode ROW_IN bitsI').
  { unfold decode. apply filter_ext_in. intros b Hb. unfold reads_pressed.
    rewrite HI; [reflexivity|].
    cbn in Hb. repeat (destruct Hb as [<-|Hb]; [cbv; discriminate|]).
    destruct Hb. }
  assert (EC : decode ROW_CMD bitsC = decode ROW_CMD bitsC').
  { unfold decode. apply filter_ext_in. intros b Hb. unfold reads_pressed.
    rewrite HC; [reflexivity|].
    cbn in Hb. repeat (destruct Hb as [<-|Hb]; [cbv; discriminate|]).
    destruct Hb. }
  split; [|split; [|split; [|split; [|split]]]].
  - rewrite (loop_AH_run kb), events_triple. reflexivity.
  - intros b. unfold decode. rewrite filter_In. unfold reads_pressed.
    rewrite negb_true_iff. split.
    + intros [Hin Hb]. exists (position b). split; [|exact Hb].
      cbn in Hin. repeat (destruct Hin as [<-|Hin]; [reflexivity|]).
      destruct Hin.
    + intros (p & Hp & Hb).
      destruct b; try discriminate Hp; injection Hp as <-;
        (split; [cbn; tauto | exact Hb]).
  - exact EI.
  - rewrite !(loop_IN_run kb), !events_triple. unfold row_keys.
    cbn [holding nesRegister]. rewrite EI. reflexivity.
  - exact EC.
  - rewrite !loop_Command_run, !events_triple. unfold row_keys.
    cbn [holding nesRegister]. rewrite EC. reflexivity.
Qed.

Lemma decode_by_table_witness :
  decode ROW_IN 248 = decode ROW_IN 251 /\
  events (loop_IN (holding 248 tap_H)) = events (loop_IN (holding 251 tap_H)) /\
  decode ROW_CMD 252 = decode ROW_CMD 253 /\
  events (loop_Command arduino_keyboard (holding 252 tap_H)) =
    events (loop_Command arduino_keyboard (holding 253 tap_H)).
Proof.
  apply (decode_by_table arduino_keyboard tap_H 254 248 251 252 253).
  - intros p Hp. symmetry.
    apply (testbit_above_low_bits 248 3 p); [lia | simpl; lia].
  - intros p Hp. symmetry.
    apply (testbit_above_low_bits 252 1 p); [lia | simpl; lia].
Defined.

(** C6: the key handed to the keyboard for every button read as pressed
    is the one of the fixed table: the lowercase letter for A to N, 'z'
    for RON, left-shift for RIICHI, space for CHI, left-alt for PON,
    left-ctrl for KAN, '1' for ST and '5' for SEL; nothing else is
    pressed. *)
Theorem key_code_mapping (kb : KeyboardH) (s : machine) :
  pressed_keys (events (loop kb s)) =
    map (fun b => to_char (spec_keycode kb b)) (snapshot s) /\
  (forall b, to_char (spec_keycode kb b) =
             match b with
             | BtnRIICHI => to_char (KEY_LEFT_SHIFT kb)
             | BtnPON => to_char (KEY_LEFT_ALT kb)
             | BtnKAN => to_char (KEY_LEFT_CTRL kb)
             | _ => spec_keycode kb b
             end).
Proof.
  split.
  - apply cycle_pressed_keys.
  - intros b. destruct b; reflexivity.
Qed.

(* ===================================================================== *)
(** ** Press and release events over polling cycles                       *)
(* ===================================================================== *)

(** C1, as stated, fails: with [H] held over two cycles, the second cycle
    reads the same snapshot as the first and presses 'h' again. *)
Lemma held_button_pressed_again :
  snapshot hold_H = [BtnH] /\
  snapshot (final (loop arduino_keyboard hold_H)) = snapshot hold_H /\
  pressed_keys
    (events (loop arduino_keyboard (final (loop arduino_keyboard hold_H))))
  = [chr "h"] /\
  ~ (forall s, snapshot s <> [] ->
       snapshot (final (loop arduino_keyboard s)) = snapshot s ->
       pressed_keys
         (events (loop arduino_keyboard (final (loop arduino_keyboard s))))
       = []).
Proof.
  assert (H1 : snapshot hold_H = [BtnH]) by (vm_compute; reflexivity).
  assert (H2 : snapshot (final (loop arduino_keyboard hold_H)) = snapshot hold_H)
    by (vm_compute; reflexivity).
  assert (H3 : pressed_keys
                 (events (loop arduino_keyboard
                            (final (loop arduino_keyboard hold_H))))
               = [chr "h"]) by (vm_compute; reflexivity).
  repeat split; try assumption.
  intros H. specialize (H hold_H). rewrite H3 in H.
  assert (Hf : [chr "h"] = []); [apply H|discriminate Hf].
  - rewrite H1. discriminate.
  - exact H2.
Qed.

(** C1, amended: when two cycles in a row read the same non-empty
    snapshot, the second cycle makes the same [Keyboard.press] calls as
    the first, one per button of the snapshot; the sketch keeps no set of
    active buttons, a held button is pressed again in every cycle, and
    neither cycle releases. *)
Theorem held_snapshot_pressed_each_cycle (kb : KeyboardH) (s : machine)
    (Hne : snapshot s <> [])
    (Hsame : snapshot (final (loop kb s)) = snapshot s) :
  keyboard_calls (events (loop kb (final (loop kb s)))) =
    keyboard_calls (events (loop kb s)) /\
  keyboard_calls (events (loop kb s)) =
    map (fun b => KeyboardPress (key_char kb b)) (snapshot s) /\
  pressed_keys (events (loop kb (final (loop kb s)))) <> [].
Proof.
  assert (Hcalls : forall s', snapshot s' = snapshot s ->
            keyboard_calls (events (loop kb s')) =
            map (fun b => KeyboardPress (key_char kb b)) (snapshot s)).
  { intros s' Hs'. rewrite cycle_calls_pressed by (rewrite Hs'; exact Hne).
    unfold cycle_keys, presses. rewrite Hs', map_map. reflexivity. }
  split; [|split].
  - rewrite (Hcalls _ Hsame), (Hcalls s eq_refl). reflexivity.
  - apply (Hcalls s eq_refl).
  - rewrite cycle_pressed_keys, Hsame.
    destruct (snapshot s); [congruence | discriminate].
Qed.

Lemma held_snapshot_pressed_each_cycle_witness :
  snapshot hold_H <> [] /\
  snapshot (final (loop arduino_keyboard hold_H)) = snapshot hold_H /\
  keyboard_calls
    (events (loop arduino_keyboard (final (loop arduino_keyboard hold_H)))) =
  keyboard_calls (events (loop arduino_keyboard hold_H)).
Proof.
  assert (H1 : snapshot hold_H <> []) by (vm_compute; discriminate).
  assert (H2 : snapshot (final (loop arduino_keyboard hold_H)) = snapshot hold_H)
    by (vm_compute; reflexivity).
  split; [exact H1|]. split; [exact H2|].
  apply (held_snapshot_pressed_each_cycle arduino_keyboard hold_H H1 H2).
Defined.

(** C2, as stated, fails: [H] held for two cycles and then released gives
    two press calls, not one. *)
Lemma two_cycles_two_presses :
  (forall k, (k < 2)%nat ->
     snapshot (final (cycles arduino_keyboard k hold_H)) = [BtnH]) /\
  snapshot (final (cycles arduino_keyboard 2 hold_H)) = [] /\
  keyboard_calls (events (cycles arduino_keyboard 3 hold_H)) =
    [KeyboardPress (chr "h"); KeyboardPress (chr "h"); KeyboardReleaseAll] /\
  count_presses (events (cycles arduino_keyboard 3 hold_H)) <> 1%nat.
Proof.
  split; [|split; [|split]].
  - intros k Hk. destruct k as [|[|k]]; [vm_compute; reflexivity ..|lia].
  - vm_compute; reflexivity.
  - vm_compute; reflexivity.
  - vm_compute. discriminate.
Qed.

(** C2, amended: a single button read as pressed, alone, for [N >= 1]
    cycles in a row and then a cycle that reads no button give exactly
    [N] press calls for that button, one per cycle, followed by exactly
    one release-all. *)
Theorem press_hold_release (kb : KeyboardH) (b : button) (N : nat)
    (s : machine)
    (Hkb : modifiers_not_nul kb)
    (HN : (1 <= N)%nat)
    (Hheld : forall k, (k < N)%nat -> snapshot (final (cycles kb k s)) = [b])
    (Hfree : snapshot (final (cycles kb N s)) = []) :
  keyboard_calls (events (cycles kb (S N) s)) =
    repeat (KeyboardPress (key_char kb b)) N ++ [KeyboardReleaseAll] /\
  count_presses (events (cycles kb (S N) s)) = N /\
  count_releases (events (cycles kb (S N) s)) = 1%nat.
Proof.
  destruct (held_cycles kb b N s Hheld) as [Hcalls Hst].
  destruct (Hst HN) as [Hlast Hpressed].
  assert (Hall : keyboard_calls (events (cycles kb (S N) s)) =
                 repeat (KeyboardPress (key_char kb b)) N
                   ++ [KeyboardReleaseAll]).
  { rewrite cycles_events_snoc, keyboard_calls_app, Hcalls.
    rewrite cycle_calls_idle by exact Hfree.
    rewrite keyboard_calls_release, Hpressed, Hlast.
    destruct (Z.eqb_spec (key_char kb b) 0) as [He|_]; [|reflexivity].
    destruct (key_char_not_nul kb b Hkb He). }
  split; [exact Hall|].
  split.
  - unfold count_presses.
    rewrite <- pressed_keys_keyboard, Hall, pressed_keys_app, length_app.
    rewrite pressed_keys_repeat, repeat_length. cbn. lia.
  - rewrite <- count_releases_keyboard, Hall. unfold count_releases.
    rewrite filter_app, length_app.
    fold (count_releases (repeat (KeyboardPress (key_char kb b)) N)).
    rewrite count_releases_repeat. reflexivity.
Qed.

Lemma press_hold_release_witness :
  modifiers_not_nul arduino_keyboard /\
  (1 <= 2)%nat /\
  (forall k, (k < 2)%nat ->
     snapshot (final (cycles arduino_keyboard k hold_H)) = [BtnH]) /\
  snapshot (final (cycles arduino_keyboard 2 hold_H)) = [] /\
  count_presses (events (cycles arduino_keyboard 3 hold_H)) = 2%nat /\
  count_releases (events (cycles arduino_keyboard 3 hold_H)) = 1%nat.
Proof.
  assert (H1 : forall k, (k < 2)%nat ->
             snapshot (final (cycles arduino_keyboard k hold_H)) = [BtnH]).
  { intros k Hk. destruct k as [|[|k]]; [vm_compute; reflexivity ..|lia]. }
  assert (H2 : snapshot (final (cycles arduino_keyboard 2 hold_H)) = [])
    by (vm_compute; reflexivity).
  split; [exact modifiers_not_nul_arduino|].
  split; [lia|]. split; [exact H1|]. split; [exact H2|].
  apply (press_hold_release arduino_keyboard BtnH 2 hold_H
           modifiers_not_nul_arduino (le_S 1 1 (le_n 1)) H1 H2).
Defined.

(** C5: after a cycle that read some button, a cycle that reads none
    makes exactly one keyboard call, the release of all keys, which drops
    every key the host still holds; afterwards the keyboard record of the
    sketch is clear: no last pressed key, no button pressed. *)
Theorem release_completeness (kb : KeyboardH) (s : machine)
    (held : list Z)
    (Hkb : modifiers_not_nul kb)
    (Hne : snapshot s <> [])
    (Hfree : snapshot (final (loop kb s)) = []) :
  keyboard_calls (events (loop kb (final (loop kb s)))) =
    [KeyboardReleaseAll] /\
  held_after (events (loop kb s)) held <> [] /\
  held_after (events (loop kb s) ++ events (loop kb (final (loop kb s))))
             held = [] /\
  lastPressedKey (final (loop kb (final (loop kb s)))) = 0 /\
  isButtonPressed (final (loop kb (final (loop kb s)))) = false.
Proof.
  assert (Hlast : lastPressedKey (final (loop kb s)) <> 0).
  { rewrite cycle_last_key. destruct (snapshot s) as [|b r]; [congruence|].
    apply last_key_not_nul, Hkb. }
  assert (Hcalls : keyboard_calls (events (loop kb (final (loop kb s)))) =
                   [KeyboardReleaseAll]).
  { rewrite cycle_calls_idle by exact Hfree.
    rewrite keyboard_calls_release, cycle_not_pressed.
    destruct (Z.eqb_spec (lastPressedKey (final (loop kb s))) 0) as [He|_];
      [destruct (Hlast He) | reflexivity]. }
  split; [exact Hcalls|]. split; [|split; [|split]].
  - rewrite <- held_after_keyboard, cycle_calls_pressed by exact Hne.
    pose proof (cycle_keys_nil kb s) as Hnil.
    destruct (cycle_keys kb s) as [|k r]; [destruct (Hne (Hnil eq_refl))|].
    apply held_after_presses.
  - rewrite <- held_after_keyboard, keyboard_calls_app, Hcalls.
    apply held_after_release.
  - rewrite cycle_last_key, Hfree, cycle_not_pressed. reflexivity.
  - apply cycle_not_pressed.
Qed.

Lemma release_completeness_witness :
  modifiers_not_nul arduino_keyboard /\
  snapshot tap_H <> [] /\
  snapshot (final (loop arduino_keyboard tap_H)) = [] /\
  keyboard_calls
    (events (loop arduino_keyboard (final (loop arduino_keyboard tap_H)))) =
  [KeyboardReleaseAll].
Proof.
  assert (H1 : snapshot tap_H <> []) by (vm_compute; discriminate).
  assert (H2 : snapshot (final (loop arduino_keyboard tap_H)) = [])
    by (vm_compute; reflexivity).
  split; [exact modifiers_not_nul_arduino|].
  split; [exact H1|]. split; [exact H2|].
  apply (release_completeness arduino_keyboard tap_H []
           modifiers_not_nul_arduino H1 H2).
Defined.

(** C9: once a cycle has released all keys, the last-pressed-key record
    is 0, and as long as the following cycles read no button they make
    no keyboard call at all and leave the record at 0. *)
Theorem release_not_repeated (kb : KeyboardH) (s : machine) (n : nat)
    (Hrel : In KeyboardReleaseAll (events (loop kb s)))
    (Hidle : forall k, (k < n)%nat ->
               snapshot (final (cycles kb k (final (loop kb s)))) = []) :
  lastPressedKey (final (loop kb s)) = 0 /\
  keyboard_calls (events (cycles kb n (final (loop kb s)))) = [] /\
  lastPressedKey (final (cycles kb n (final (loop kb s)))) = 0.
Proof.
  destruct (release_means_idle kb s Hrel) as (Hs & Hp & _).
  assert (Hl : lastPressedKey (final (loop kb s)) = 0).
  { rewrite cycle_last_key, Hs, Hp. reflexivity. }
  split; [exact Hl|].
  destruct (idle_cycles kb n (final (loop kb s))
              (cycle_not_pressed kb s) Hl Hidle) as (H1 & H2 & _).
  split; assumption.
Qed.

Lemma release_not_repeated_witness :
  In KeyboardReleaseAll
     (events (loop arduino_keyboard (final (loop arduino_keyboard tap_H)))) /\
  keyboard_calls
    (events (cycles arduino_keyboard 3
               (final (loop arduino_keyboard
                         (final (loop arduino_keyboard tap_H)))))) = [].
Proof.
  assert (H1 : In KeyboardReleaseAll
                  (events (loop arduino_keyboard
                             (final (loop arduino_keyboard tap_H))))).
  { apply (keyboard_call_in_trace KeyboardReleaseAll).
    vm_compute. left. reflexivity. }
  split; [exact H1|].
  apply (release_not_repeated arduino_keyboard
           (final (loop arduino_keyboard tap_H)) 3 H1).
  intros k Hk. destruct k as [|[|[|k]]]; [vm_compute; reflexivity ..|lia].
Defined.

(* ===================================================================== *)
(** ** Row selection                                                      *)
(* ===================================================================== *)

(** C8, as stated, fails: [setup] makes both select pins outputs and
    writes no level to them, so with the output bits at their reset
    level both lines are driven [LOW] from the end of the pin set-up
    (5 calls) to the end of [setup]; and the first cycle writes [nesAH]
    [LOW] before it writes [nesIN] [HIGH], so after that first write
    (9 calls) both lines are [LOW] whenever [nesIN] powered up [LOW]. *)
Lemma select_lines_low_at_start :
  both_low (lines_after reset_levels
              (firstn 5 (events (sketch arduino_keyboard 1 tap_H)))) = true /\
  both_low (lines_after reset_levels (events (setup tap_H))) = true /\
  (forall ah0,
     both_low (lines_after (ah0, LOW)
                 (firstn 9 (events (sketch arduino_keyboard 1 tap_H))))
     = true) /\
  ~ (forall kb s p0 n k,
       both_low (lines_after p0 (firstn k (events (sketch kb n s)))) = false).
Proof.
  split; [vm_compute; reflexivity|].
  split; [vm_compute; reflexivity|].
  split; [intros [|]; vm_compute; reflexivity|].
  intros H.
  specialize (H arduino_keyboard tap_H reset_levels 1%nat 5%nat).
  vm_compute in H. discriminate H.
Qed.

(** C8, amended: once the first polling cycle has selected its first row
    (the two select writes of the first [readAHrow], calls 9 and 10 of
    the sketch), the select lines are never both driven [LOW]: after
    every longer prefix of the trace, whatever levels the port powered
    up with, both lines are outputs and their levels choose one of the
    three rows. *)
Theorem select_never_both_low_after_first_selection (kb : KeyboardH) (s : machine)
    (p0 : level * level) (n k : nat)
    (Hn : (1 <= n)%nat) (Hk : (10 <= k)%nat) :
  selected (lines_after p0 (firstn k (events (sketch kb n s)))) <> None /\
  both_low (lines_after p0 (firstn k (events (sketch kb n s)))) = false.
Proof.
  destruct n as [|n]; [lia|].
  destruct (sketch_lines kb n s p0) as (rest & Hev & Hlen & Hpre & Hsafe).
  apply selects_not_low.
  rewrite Hev, firstn_app, Hlen, firstn_all2 by lia.
  unfold lines_after in *. rewrite fold_left_app, Hpre.
  apply safe_run_firstn, Hsafe.
Qed.

Lemma select_never_both_low_after_first_selection_witness :
  (1 <= 2)%nat /\ (10 <= 12)%nat /\
  both_low (lines_after reset_levels
              (firstn 12 (events (sketch arduino_keyboard 2 tap_H)))) = false.
Proof.
  split; [lia|]. split; [lia|].
  apply (select_never_both_low_after_first_selection
           arduino_keyboard tap_H reset_levels 2 12); lia.
Defined.

(* ===================================================================== *)
(** ** Further properties of the row reads                                *)
(* ===================================================================== *)

(** X1: [readINrow] returns an 8-bit value; its [k]-th read of the data
    line, for [k] from 0 to 5, decides bit [k + 2]: the bit is 0 exactly
    when that read found [LOW]. *)
Theorem readINrow_bit_order (s : machine) (k : nat) (Hk : (k < 6)%nat) :
  0 <= result (readINrow s) < 256 /\
  (Z.testbit (result (readINrow s)) (Z.of_nat (k + 2)) = false
   <-> line s k = LOW).
Proof.
  rewrite readINrow_run, result_triple. split.
  - apply (pack_range (HIGH :: HIGH :: map (line s) (seq 0 6))).
  - rewrite pack_testbit, level_bit_low.
    do 6 (destruct k as [|k]; [reflexivity|]). lia.
Qed.

Lemma readINrow_bit_order_witness :
  (4 < 6)%nat /\
  (Z.testbit (result (readINrow (power_up (low_at [4%nat])))) 6 = false
   <-> line (power_up (low_at [4%nat])) 4 = LOW).
Proof.
  split; [lia|].
  apply (readINrow_bit_order (power_up (low_at [4%nat])) 4). lia.
Defined.

(** X2: [readCommandRow] returns an 8-bit value; its [k]-th read of the
    data line, for [k] from 0 to 6, decides bit [k + 1]: the bit is 0
    exactly when that read found [LOW]. *)
Theorem readCommandRow_bit_order (s : machine) (k : nat) (Hk : (k < 7)%nat) :
  0 <= result (readCommandRow s) < 256 /\
  (Z.testbit (result (readCommandRow s)) (Z.of_nat (k + 1)) = false
   <-> line s k = LOW).
Proof.
  rewrite readCommandRow_run, result_triple. split.
  - apply (pack_range (HIGH :: map (line s) (seq 0 7))).
  - rewrite pack_testbit, level_bit_low.
    do 7 (destruct k as [|k]; [reflexivity|]). lia.
Qed.

Lemma readCommandRow_bit_order_witness :
  (0 < 7)%nat /\
  (Z.testbit (result (readCommandRow (power_up (low_at [0%nat])))) 1 = false
   <-> line (power_up (low_at [0%nat])) 0 = LOW).
Proof.
  split; [lia|].
  apply (readCommandRow_bit_order (power_up (low_at [0%nat])) 0). lia.
Defined.

(** X3: [readAHrow] rebuilds any byte that the data line presents least
    significant bit first: when its eight reads find the bits 0 to 7 of
    [v], it returns [v]. *)
Theorem readAHrow_round_trip (s : machine) (v : Z)
    (Hv : 0 <= v < 256)
    (Hline : forall i, (i < 8)%nat ->
               line s i = bit_level (Z.testbit v (Z.of_nat i))) :
  result (readAHrow s) = v.
Proof.
  rewrite readAHrow_run, result_triple.
  apply Z.bits_inj'. intros n Hn.
  destruct (Z.lt_ge_cases n 8) as [Hlt|Hge].
  - rewrite pack_position by exact Hn.
    assert (Hi : (Z.to_nat n < 8)%nat) by lia.
    rewrite <- (Z2Nat.id n) at 2 by exact Hn.
    specialize (Hline (Z.to_nat n) Hi). revert Hline.
    generalize (Z.to_nat n) Hi. clear. intros i Hi.
    do 8 (destruct i as [|i];
          [cbn [nth map seq]; intros ->;
           destruct (Z.testbit v _); reflexivity|]).
    lia.
  - rewrite (testbit_beyond v 8 n) by (change (2 ^ 8) with 256; lia).
    apply (testbit_beyond _ 8 n); [|lia].
    apply (pack_range (map (line s) (seq 0 8))).
Qed.

Lemma readAHrow_round_trip_witness :
  0 <= 165 < 256 /\ result (readAHrow (power_up (shift_out 165))) = 165.
Proof.
  split; [lia|].
  apply (readAHrow_round_trip (power_up (shift_out 165)) 165); [lia|].
  intros i Hi.
  do 8 (destruct i as [|i]; [reflexivity|]). lia.
Defined.

(* ===================================================================== *)
(** ** Further properties of the polling cycle                            *)
(* ===================================================================== *)


(** X5: every polling cycle has the same shape, whatever the buttons and
    the state: it samples the data line 21 times, makes 54 [digitalWrite]
    calls, and selects the rows in the order A-H, I-N, command by writing
    the select lines ([nesAH], [nesIN]) to (LOW, HIGH), (HIGH, LOW),
    (HIGH, HIGH). *)
Theorem cycle_shape (kb : KeyboardH) (s : machine) :
  count_reads (events (loop kb s)) = 21%nat /\
  sampled (final (loop kb s)) = (21 + sampled s)%nat /\
  length (writes (events (loop kb s))) = 54%nat /\
  filter is_select_write (events (loop kb s)) =
    select_row LOW HIGH ++ select_row HIGH LOW ++ select_row HIGH HIGH.
Proof.
  split; [|split; [|split]].
  - unfold count_reads. rewrite (filter_cycle is_read) by reflexivity.
    rewrite readAHrow_run, readINrow_run, readCommandRow_run, !events_triple.
    reflexivity.
  - exact (input_view_sampled _ _ (cycle_input kb s)).
  - unfold writes. rewrite (filter_cycle is_write) by reflexivity.
    rewrite readAHrow_run, readINrow_run, readCommandRow_run, !events_triple.
    reflexivity.
  - rewrite (filter_cycle is_select_write) by reflexivity.
    rewrite readAHrow_run, readINrow_run, readCommandRow_run, !events_triple.
    reflexivity.
Qed.

(** X6: a polling cycle calls [delay(80)] exactly once when it read some
    button as pressed (or was entered with [isButtonPressed] set), and
    makes no [delay] call otherwise. *)
Theorem bounce_delay (kb : KeyboardH) (s : machine) :
  delays (events (loop kb s)) =
  if match snapshot s with [] => isButtonPressed s | _ :: _ => true end
  then [Delay 80] else [].
Proof. rewrite cycle_delays. destruct (snapshot s); reflexivity. Qed.

(** X7: a polling cycle that releases all keys does nothing else at the
    keyboard and does not wait: it presses no key, calls [delay] not at
    all, and releases exactly once. *)
Theorem release_excludes_press_and_delay (kb : KeyboardH) (s : machine)
    (Hrel : In KeyboardReleaseAll (events (loop kb s))) :
  keyboard_calls (events (loop kb s)) = [KeyboardReleaseAll] /\
  pressed_keys (events (loop kb s)) = [] /\
  delays (events (loop kb s)) = [].
Proof.
  destruct (release_means_idle kb s Hrel) as (Hs & Hp & Hl).
  split; [|split].
  - rewrite cycle_calls_idle, keyboard_calls_release, Hp by exact Hs.
    destruct (Z.eqb_spec (lastPressedKey s) 0) as [He|_];
      [destruct (Hl He) | reflexivity].
  - rewrite cycle_pressed_keys, Hs. reflexivity.
  - rewrite cycle_delays, Hs, Hp. reflexivity.
Qed.

Lemma release_excludes_press_and_delay_witness :
  In KeyboardReleaseAll
     (events (loop arduino_keyboard (final (loop arduino_keyboard tap_H)))) /\
  delays (events (loop arduino_keyboard
                    (final (loop arduino_keyboard tap_H)))) = [].
Proof.
  assert (H1 : In KeyboardReleaseAll
                  (events (loop arduino_keyboard
                             (final (loop arduino_keyboard tap_H))))).
  { apply (keyboard_call_in_trace KeyboardReleaseAll).
    vm_compute. left. reflexivity. }
  split; [exact H1|].
  apply (release_excludes_press_and_delay arduino_keyboard
           (final (loop arduino_keyboard tap_H)) H1).
Defined.

(* ===================================================================== *)
(** ** Further properties over several cycles                             *)
(* ===================================================================== *)

(** X8: as long as every cycle reads some button as pressed, the sketch
    never releases: over such a run no release-all is called, and every
    key pressed in any of its cycles is still held by the host at the
    end, also the keys of buttons that were let go in between. *)
Theorem keys_held_until_all_up (kb : KeyboardH) (n : nat) (s : machine)
    (held : list Z)
    (Hdown : forall k, (k < n)%nat ->
               snapshot (final (cycles kb k s)) <> []) :
  count_releases (events (cycles kb n s)) = 0%nat /\
  held_after (events (cycles kb n s)) held =
    rev (pressed_keys (events (cycles kb n s))) ++ held.
Proof.
  assert (H0 : count_releases (events (cycles kb n s)) = 0%nat).
  { induction n as [|n IH]; [reflexivity|].
    rewrite cycles_events_snoc, count_releases_app.
    rewrite IH by (intros k Hk; apply Hdown; lia).
    rewrite cycle_no_release by (apply Hdown; lia). reflexivity. }
  split; [exact H0 | apply held_without_release, H0].
Qed.

Lemma keys_held_until_all_up_witness :
  (forall k, (k < 2)%nat ->
     snapshot (final (cycles arduino_keyboard k roll_H_G)) <> []) /\
  snapshot (final (cycles arduino_keyboard 1 roll_H_G)) = [BtnG] /\
  held_after (events (cycles arduino_keyboard 2 roll_H_G)) [] =
    [chr "g"; chr "h"].
Proof.
  assert (H : forall k, (k < 2)%nat ->
            snapshot (final (cycles arduino_keyboard k roll_H_G)) <> []).
  { intros k Hk. destruct k as [|[|k]]; [vm_compute; discriminate ..|lia]. }
  split; [exact H|]. split; [vm_compute; reflexivity|].
  destruct (keys_held_until_all_up arduino_keyboard 2 roll_H_G [] H)
    as [_ Hheld].
  rewrite Hheld. vm_compute. reflexivity.
Defined.

(** X9: from power-up, at the end of [setup] and of every polling cycle,
    [isButtonPressed] is false and [lastPressedKey] is 0 exactly when the
    host holds no key: the record the release test looks at never gets
    out of step with the keys that are down at the host. *)
Theorem record_tracks_held_keys (kb : KeyboardH) (d : nat -> level)
    (n : nat) (Hkb : modifiers_not_nul kb) :
  isButtonPressed (final (sketch kb n (power_up d))) = false /\
  (lastPressedKey (final (sketch kb n (power_up d))) = 0 <->
   held_after (events (sketch kb n (power_up d))) [] = []).
Proof.
  rewrite sketch_final, sketch_events, held_after_app.
  rewrite setup_run, events_triple.
  change (held_after _ []) with (@nil Z) at 1.
  apply cycles_record; [exact Hkb | reflexivity | split; reflexivity].
Qed.

Lemma record_tracks_held_keys_witness :
  modifiers_not_nul arduino_keyboard /\
  (lastPressedKey (final (sketch arduino_keyboard 1 hold_H)) = 0 <->
   held_after (events (sketch arduino_keyboard 1 hold_H)) [] = []).
Proof.
  split; [exact modifiers_not_nul_arduino|].
  apply (record_tracks_held_keys arduino_keyboard
           (low_at [0%nat; 21%nat]) 1 modifiers_not_nul_arduino).
Defined.

(** X10: the sketch calls [Keyboard.begin] exactly once, in [setup], and
    before any other call to the keyboard. *)
Theorem keyboard_begin_once_and_first (kb : KeyboardH) (n : nat)
    (s : machine) :
  filter is_begin (events (sketch kb n s)) = [KeyboardBegin] /\
  keyboard_calls (events (sketch kb n s)) =
    KeyboardBegin :: keyboard_calls (events (cycles kb n s)) /\
  filter is_begin (events (cycles kb n s)) = [].
Proof.
  rewrite sketch_events, filter_app, keyboard_calls_app, cycles_no_begin.
  rewrite setup_run, events_triple. repeat split.
Qed.

(** X11: from power-up with no button read as pressed, the sketch makes
    no keyboard call but [Keyboard.begin]: in particular no release is
    sent at start-up. *)
Theorem quiet_start (kb : KeyboardH) (d : nat -> level) (n : nat)
    (Hidle : forall k, (k < n)%nat ->
               snapshot (final (cycles kb k (power_up d))) = []) :
  keyboard_calls (events (sketch kb n (power_up d))) = [KeyboardBegin].
Proof.
  rewrite sketch_events, keyboard_calls_app.
  destruct (idle_cycles kb n (power_up d) eq_refl eq_refl Hidle) as [H _].
  rewrite H, setup_run, events_triple. reflexivity.
Qed.

Lemma quiet_start_witness :
  (forall k, (k < 3)%nat ->
     snapshot (final (cycles arduino_keyboard k (power_up (low_at [])))) = []) /\
  keyboard_calls (events (sketch arduino_keyboard 3 (power_up (low_at [])))) =
    [KeyboardBegin].
Proof.
  assert (H : forall k, (k < 3)%nat ->
            snapshot (final (cycles arduino_keyboard k (power_up (low_at []))))
            = []).
  { intros k Hk. destruct k as [|[|[|k]]]; [vm_compute; reflexivity ..|lia]. }
  split; [exact H|].
  apply (quiet_start arduino_keyboard (low_at []) 3 H).
Defined.

(* ===================================================================== *)
(** ** Further properties of the GPIO traffic                             *)
(* ===================================================================== *)

(** X12: every read of the data line is made with clock and latch both
    driven [LOW], whatever levels the port powered up with: [setup]
    brings both lines low and every pulse is finished (high, then low)
    before the sample is taken. *)
Theorem reads_after_pulses (kb : KeyboardH) (n : nat) (s : machine)
    (p0 : level * level) (p q : list event) (pin : Z) (v : level)
    (Hread : events (sketch kb n s) = p ++ DigitalRead pin v :: q) :
  both_idle (clock_latch_after p0 p) = true.
Proof.
  unfold clock_latch_after. apply (reads_settled_at _ p q pin v).
  rewrite <- Hread, sketch_events, reads_settled_app.
  rewrite setup_run, events_triple.
  apply andb_true_iff. split; [reflexivity|].
  replace (fold_left drive_clock_latch _ (power_up_lines p0))
    with idle_lines by (destruct p0 as [[|] [|]]; reflexivity).
  apply cycles_clock_latch.
Qed.

Lemma reads_after_pulses_witness :
  events (sketch arduino_keyboard 1 tap_H) =
    firstn 12 (events (sketch arduino_keyboard 1 tap_H))
      ++ DigitalRead nesData LOW
      :: skipn 13 (events (sketch arduino_keyboard 1 tap_H)) /\
  both_idle (clock_latch_after reset_levels
               (firstn 12 (events (sketch arduino_keyboard 1 tap_H)))) = true.
Proof.
  assert (H : events (sketch arduino_keyboard 1 tap_H) =
              firstn 12 (events (sketch arduino_keyboard 1 tap_H))
                ++ DigitalRead nesData LOW
                :: skipn 13 (events (sketch arduino_keyboard 1 tap_H)))
    by (vm_compute; reflexivity).
  split; [exact H|].
  apply (reads_after_pulses arduino_keyboard 1 tap_H reset_levels _ _ _ _ H).
Defined.

(** X13: the sketch reads the data pin only, and configures as outputs
    and writes the clock, latch and two select pins only: it never writes
    the data pin and never reads an output pin. *)
Theorem pins_used_as_declared (kb : KeyboardH) (n : nat) (s : machine) :
  forallb pin_use (events (sketch kb n s)) = true.
Proof.
  rewrite sketch_events, forallb_app, setup_run, events_triple.
  apply andb_true_iff. split; [reflexivity|].
  revert s; induction n as [|n IH]; intros s; [reflexivity|].
  rewrite cycles_events_S, forallb_app, cycle_pin_use. apply IH.
Qed.
